(** * digwebs: the request dispatch pipeline of [www/web.py]

    A shallow embedding of the dispatch core of the framework: the
    middleware chain built by [fn_route], the WSGI entry point [wsgi]
    with its result translation, its three [except] clauses and its
    [finally] block, the [view] decorator and [init_middlewares].

    Python values are a small inductive type; a Python [str] is a
    [string] when its characters are below U+0100 and a list of code
    points otherwise, [bytes] is [list byte].  Code that has effects (the thread-local
    [ctx], the response object, logging, [start_response]) runs in a
    state-and-exception monad whose state records the effects as a
    trace of events. *)

From Stdlib Require Import Strings.String Strings.Ascii Strings.Byte List ZArith Lia Bool Arith.
From Stdlib Require Import Sorted Permutation DecimalString.
From Equations Require Import Equations.
Import ListNotations.
Local Open Scope string_scope.
Local Open Scope list_scope.

(** ** Python strings *)

Module Str.

(** [s.startswith(p)] *)
Fixpoint startswith (p s : string) : bool :=
  match p, s with
  | EmptyString, _ => true
  | String a p', String b s' => (Ascii.eqb a b && startswith p' s')%bool
  | String _ _, EmptyString => false
  end.

(** [s.endswith(suffix)]: the last [len(suffix)] characters of [s]
    are [suffix]. *)
Definition endswith (s suffix : string) : bool :=
  Nat.leb (String.length suffix) (String.length s)
  && String.eqb
       (substring (String.length s - String.length suffix)
                  (String.length suffix) s)
       suffix.

(** [s.replace(old, new)] for a non-empty [old]: scan from the left,
    replace every non-overlapping occurrence.  [skip] counts the
    characters of a matched occurrence still to be dropped. *)
Fixpoint replace_from (old new : string) (skip : nat) (s : string) : string :=
  match s with
  | EmptyString => EmptyString
  | String c s' =>
      match skip with
      | S k => replace_from old new k s'
      | O =>
          if startswith old s
          then String.append new (replace_from old new (String.length old - 1) s')
          else String c (replace_from old new 0 s')
      end
  end.

Definition replace (old new s : string) : string :=
  replace_from old new 0 s.

(** [needle in s] *)
Fixpoint contains (needle s : string) : bool :=
  startswith needle s
  || match s with
     | EmptyString => false
     | String _ s' => contains needle s'
     end.

(** [c in s] for a single character. *)
Fixpoint has_char (c : ascii) (s : string) : bool :=
  match s with
  | EmptyString => false
  | String a s' => Ascii.eqb a c || has_char c s'
  end.

(** One character of a [str] in UTF-8.  The characters of [string]
    are the code points U+0000..U+00FF: one byte below U+0080, two
    bytes from there on. *)
Definition utf8_char (c : ascii) : list byte :=
  let n := nat_of_ascii c in
  if Nat.ltb n 128 then [byte_of_ascii c]
  else [byte_of_ascii (ascii_of_nat (192 + n / 64));
        byte_of_ascii (ascii_of_nat (128 + n mod 64))].

(** [s.encode('utf-8')] *)
Fixpoint encode_utf8 (s : string) : list byte :=
  match s with
  | EmptyString => []
  | String c s' => utf8_char c ++ encode_utf8 s'
  end.

(** The code points of a [str]. *)
Definition points (s : string) : list N :=
  map N_of_ascii (list_ascii_of_string s).

End Str.

(** ** UTF-8 *)

Module Utf8.

(** The bytes of one code point, as numbers.  Code points run up to
    U+10FFFF; the surrogates U+D800..U+DFFF have no encoding, and
    [encode('utf-8')] raises [UnicodeEncodeError] for them. *)
Definition encode_point (cp : N) : option (list N) :=
  if (cp <? 0x80)%N then Some [cp]
  else if (cp <? 0x800)%N then
    Some [0xC0 + cp / 64; 0x80 + cp mod 64]%N
  else if ((0xD800 <=? cp) && (cp <=? 0xDFFF))%N then None
  else if (cp <? 0x10000)%N then
    Some [0xE0 + cp / 4096; 0x80 + (cp / 64) mod 64; 0x80 + cp mod 64]%N
  else if (cp <? 0x110000)%N then
    Some [0xF0 + cp / 262144; 0x80 + (cp / 4096) mod 64;
          0x80 + (cp / 64) mod 64; 0x80 + cp mod 64]%N
  else None.

Fixpoint encode (cps : list N) : option (list N) :=
  match cps with
  | [] => Some []
  | cp :: cps' =>
      match encode_point cp, encode cps' with
      | Some bs, Some bs' => Some (bs ++ bs')
      | _, _ => None
      end
  end.

Definition byte_of_N (n : N) : byte :=
  match Byte.of_N n with Some b => b | None => x00 end.

(** [s.encode('utf-8')] for a [str] given by its code points; [None]
    where Python raises [UnicodeEncodeError]. *)
Definition encode_bytes (cps : list N) : option (list byte) :=
  option_map (map byte_of_N) (encode cps).

(** A continuation byte: [10xxxxxx]. *)
Definition continues (b : N) : bool := ((0x80 <=? b) && (b <? 0xC0))%N.

(** [b.decode('utf-8')] on the numbers of the bytes, as RFC 3629 has
    it: the length of a sequence is read off its first byte, and
    overlong sequences, surrogates and code points past U+10FFFF are
    refused. *)
Fixpoint decode (bs : list N) : option (list N) :=
  match bs with
  | [] => Some []
  | b0 :: r0 =>
      if (b0 <? 0x80)%N then option_map (cons b0) (decode r0)
      else if (b0 <? 0xC0)%N then None
      else if (b0 <? 0xE0)%N then
        match r0 with
        | b1 :: r1 =>
            let cp := ((b0 - 0xC0) * 64 + (b1 - 0x80))%N in
            if continues b1 && (0x80 <=? cp)%N
            then option_map (cons cp) (decode r1) else None
        | _ => None
        end
      else if (b0 <? 0xF0)%N then
        match r0 with
        | b1 :: b2 :: r2 =>
            let cp := ((b0 - 0xE0) * 4096 + (b1 - 0x80) * 64
                       + (b2 - 0x80))%N in
            if continues b1 && continues b2 && (0x800 <=? cp)%N
               && negb ((0xD800 <=? cp) && (cp <=? 0xDFFF))%N
            then option_map (cons cp) (decode r2) else None
        | _ => None
        end
      else if (b0 <? 0xF8)%N then
        match r0 with
        | b1 :: b2 :: b3 :: r3 =>
            let cp := ((b0 - 0xF0) * 262144 + (b1 - 0x80) * 4096
                       + (b2 - 0x80) * 64 + (b3 - 0x80))%N in
            if continues b1 && continues b2 && continues b3
               && (0x10000 <=? cp)%N && (cp <? 0x110000)%N
            then option_map (cons cp) (decode r3) else None
        | _ => None
        end
      else None
  end.

Definition decode_bytes (bs : list byte) : option (list N) :=
  decode (map Byte.to_N bs).

(** A Unicode scalar value: a code point up to U+10FFFF that is no
    surrogate. *)
Definition scalar (cp : N) : bool :=
  ((cp <? 0x110000) && negb ((0xD800 <=? cp) && (cp <=? 0xDFFF)))%N.

End Utf8.

(** ** Python values *)

(** The values a handler or a middleware returns.  A [str] is
    [PyStr] when all its characters are below U+0100 and is given by
    its code points, each at most U+10FFFF, as [PyUnicode] otherwise.
    A [dict] is an association list in insertion order, with keys of
    any kind. *)
#[warnings="-register-all"]
Inductive pyobj : Type :=
| PyNone
| PyStr (s : string)
| PyUnicode (points : list N)
| PyBytes (b : list byte)
| PyInt (z : Z)
| PyList (l : list pyobj)
| PyDict (d : list (pyobj * pyobj))
| PyTemplate (template_name : string) (model : list (pyobj * pyobj)).

(** The items of a [dict]. *)
Definition mapping := list (pyobj * pyobj).

(** A dict whose keys are names: the WSGI environment, the application
    [Dict]. *)
Definition dict := list (string * pyobj).

(** [isinstance(r, Template)], [isinstance(r, str)], [isinstance(r, dict)],
    [r is None] *)
Definition is_Template (r : pyobj) : bool :=
  match r with PyTemplate _ _ => true | _ => false end.
Definition is_str (r : pyobj) : bool :=
  match r with PyStr _ | PyUnicode _ => true | _ => false end.
Definition is_bytes (r : pyobj) : bool :=
  match r with PyBytes _ => true | _ => false end.

(** The code points of a value that is a [str]. *)
Definition str_points (r : pyobj) : option (list N) :=
  match r with
  | PyStr s => Some (Str.points s)
  | PyUnicode points => Some points
  | _ => None
  end.

(** [k == name] for a key [k] of a dict and a name. *)
Definition is_name (name : string) (k : pyobj) : bool :=
  match str_points k with
  | Some points =>
      if list_eq_dec N.eq_dec points (Str.points name) then true else false
  | None => false
  end.
Definition is_dict (r : pyobj) : bool :=
  match r with PyDict _ => true | _ => false end.
Definition is_None (r : pyobj) : bool :=
  match r with PyNone => true | _ => false end.

(** ** Exceptions *)

(** Instances of [Exception], the class the last [except] clause of
    [wsgi] names; what is raised outside that class is a [signal],
    below.  [RedirectError] and [HttpError] are the two declared
    failures of [www/errors.py]; the others are the built-in exceptions
    the dispatch core raises itself, and [OtherError] stands for any
    further exception class a middleware or a handler may raise. *)
Inductive exn : Type :=
| RedirectError (status location : string)
| HttpError (status : string)
| IndexError (msg : string)
| TypeError (msg : string)
| ValueError (msg : string)
| AttributeError (msg : string)
| OtherError (cls msg : string).

(** What Python raises that is no instance of [Exception]: the other
    subclasses of [BaseException].  No [except] clause of [wsgi]
    matches them. *)
Inductive signal : Type :=
| SystemExit (code : Z)
| KeyboardInterrupt
| GeneratorExit.

Definition is_RedirectError (e : exn) : bool :=
  match e with RedirectError _ _ => true | _ => false end.
Definition is_HttpError (e : exn) : bool :=
  match e with HttpError _ => true | _ => false end.

(** ** The request state *)

(** Modelled from the spec: the [Response] class of [www/response.py]
    is not part of the sources.  A response has a status line, "200 OK"
    by default, and an ordered sequence of headers. *)
Record Response : Type := mkResponse {
  status : string;
  headers : list (string * string)
}.

Definition new_Response : Response := mkResponse "200 OK" [].

(** Modelled from the spec: [set_header(name, value)] appends the header
    or overwrites the value of the header of that name. *)
Fixpoint set_header_in (name value : string) (hs : list (string * string))
  : list (string * string) :=
  match hs with
  | [] => [(name, value)]
  | (n, v) :: hs' =>
      if String.eqb n name then (n, value) :: hs'
      else (n, v) :: set_header_in name value hs'
  end.

Definition set_header (name value : string) (r : Response) : Response :=
  mkResponse (status r) (set_header_in name value (headers r)).

(** [Request(env)]: the parsed request is opaque to the dispatch core. *)
Record Request : Type := mkRequest { environ : dict }.

(** The names of the three attributes of the thread-local [ctx]. *)
Inductive attr : Type := a_application | a_request | a_response.

(** The effects of a request that can be observed from outside. *)
Inductive event : Type :=
| EvCall (name : string)     (* a middleware or handler announces itself *)
| EvInfo (msg : string)      (* logging.info(msg) *)
| EvException (e : exn)      (* logging.exception(e) *)
| EvStartResponse (st : string) (hs : list (string * string))
| EvDel (a : attr).          (* del ctx.<a> *)

(** The state a request runs in.  [application], [request] and
    [response] are the attributes of the thread-local [ctx], [None]
    when the attribute is not set.  [ctx.response] and the local
    variable [response] of [wsgi] name one object: [resp] is that
    object, and [response] records whether [ctx] still refers to it. *)
Record state : Type := mkState {
  application : option dict;
  request : option Request;
  response : option unit;
  resp : Response;
  trace : list event
}.

(** ** The monad of effectful code *)

(** How a call ends: it returns, it raises an instance of
    [Exception], or it is left by a [signal]. *)
Inductive outcome (A : Type) : Type :=
| Return (a : A)
| Raise (e : exn)
| Exit (b : signal).
Arguments Return {A} a.
Arguments Raise {A} e.
Arguments Exit {A} b.

Definition M (A : Type) : Type := state -> outcome A * state.

Definition ret {A} (a : A) : M A := fun s => (Return a, s).
Definition raise {A} (e : exn) : M A := fun s => (Raise e, s).
Definition exit {A} (b : signal) : M A := fun s => (Exit b, s).

Definition bind {A B} (m : M A) (k : A -> M B) : M B :=
  fun s =>
    match m s with
    | (Return a, s') => k a s'
    | (Raise e, s') => (Raise e, s')
    | (Exit b, s') => (Exit b, s')
    end.

Notation "x <- m ;; k" := (bind m (fun x => k))
  (at level 61, m at next level, right associativity).
Notation "m ;;; k" := (bind m (fun _ => k))
  (at level 61, right associativity).

(** [try: body except Exception as e: handler(e)].  A [signal] is
    not caught. *)
Definition try_except {A} (body : M A) (handler : exn -> M A) : M A :=
  fun s =>
    match body s with
    | (Return a, s') => (Return a, s')
    | (Raise e, s') => handler e s'
    | (Exit b, s') => (Exit b, s')
    end.

(** [try: body finally: final].  The [finally] block runs after the
    body whatever its outcome, also when the body is left by what no
    [except] clause catches; the outcome of the body stands when the
    block ends normally, and what the block raises replaces it. *)
Definition try_finally {A} (body : M A) (final : M unit) : M A :=
  fun s =>
    match body s with
    | (r, s') =>
        match final s' with
        | (Return _, s'') => (r, s'')
        | (Raise e, s'') => (Raise e, s'')
        | (Exit b, s'') => (Exit b, s'')
        end
    end.

Definition emit (ev : event) : M unit :=
  fun s => (Return tt,
            mkState (application s) (request s) (response s) (resp s)
                    (trace s ++ [ev])).

Definition update_resp (f : Response -> Response) : M unit :=
  fun s => (Return tt,
            mkState (application s) (request s) (response s) (f (resp s))
                    (trace s)).

Definition get_resp : M Response := fun s => (Return (resp s), s).

(** ** The middleware chain: [fn_route] *)

Section Chain.

(** What a middleware receives as its first argument. *)
Variable Context : Type.

(** A middleware is called with the context and a continuation that
    takes no argument. *)
Definition middleware : Type := Context -> M pyobj -> M pyobj.

(** An element of [self.middleware]: the tuple [(fn, priority)]. *)
Definition entry : Type := (middleware * Z)%type.

(** [fn(context, k)], where [fn] may be [None]. *)
Definition call (fn : option middleware) (context : Context) (k : M pyobj)
  : M pyobj :=
  match fn with
  | Some f => f context k
  | None => raise (TypeError "'NoneType' object is not callable")
  end.

Definition inspect {A} (a : A) : {b : A | a = b} := exist _ a eq_refl.

Section RouteEntry.

Variable self_middleware : list entry.
Variable context : Context.
Variable next : option middleware.

(** [dispatch(i)].  [self.middleware[i]] is evaluated first and
    raises [IndexError] when [i] is past the last entry; only then
    is [i] compared with the length of the list. *)
Equations? dispatch (i : nat) : M pyobj
  by wf (length self_middleware - i) lt :=
  dispatch i with inspect (nth_error self_middleware i) := {
    | exist _ None _ => raise (IndexError "list index out of range")
    | exist _ (Some e) _ =>
        let fn := if Nat.eqb i (length self_middleware)
                  then next else Some (fst e) in
        call fn context (dispatch (S i)) }.
Proof.
  assert (i < length self_middleware)
    by (apply nth_error_Some; congruence).
  lia.
Qed.

Definition route_entry : M pyobj := dispatch 0.

End RouteEntry.

End Chain.

Arguments call {Context} fn context k.
Arguments dispatch {Context} self_middleware context next i.
Arguments route_entry {Context} self_middleware context next.

(** ** The WSGI entry point: [get_wsgi_application] *)

(** The thread-local object [ctx] itself, which [wsgi] hands to the
    chain as the context; its attributes live in the state. *)
Inductive thread_local : Type := ctx.

(** [ctx.<a> = v] for the three attributes [wsgi] sets. *)
Definition set_application (v : dict) : M unit :=
  fun s => (Return tt,
            mkState (Some v) (request s) (response s) (resp s) (trace s)).

Definition set_request (v : Request) : M unit :=
  fun s => (Return tt,
            mkState (application s) (Some v) (response s) (resp s) (trace s)).

(** [response = ctx.response = Response()] *)
Definition set_response (v : Response) : M unit :=
  fun s => (Return tt,
            mkState (application s) (request s) (Some tt) v (trace s)).

Definition attr_name (a : attr) : string :=
  match a with
  | a_application => "application"
  | a_request => "request"
  | a_response => "response"
  end.

Definition has_attr (a : attr) (s : state) : bool :=
  match a with
  | a_application => match application s with Some _ => true | None => false end
  | a_request => match request s with Some _ => true | None => false end
  | a_response => match response s with Some _ => true | None => false end
  end.

Definition clear_attr (a : attr) (s : state) : state :=
  match a with
  | a_application =>
      mkState None (request s) (response s) (resp s) (trace s)
  | a_request =>
      mkState (application s) None (response s) (resp s) (trace s)
  | a_response =>
      mkState (application s) (request s) None (resp s) (trace s)
  end.

(** [del ctx.<a>]: removes the attribute, and raises [AttributeError]
    when there is no such attribute. *)
Definition del (a : attr) : M unit :=
  fun s =>
    if has_attr a s
    then emit (EvDel a) (clear_attr a s)
    else (Raise (AttributeError (attr_name a)), s).

(** [logging.info(msg)] and [logging.exception(e)] *)
Definition logging_info (msg : string) : M unit := emit (EvInfo msg).
Definition logging_exception (e : exn) : M unit := emit (EvException e).

(** The [start_response] callable of the WSGI server. *)
Definition start_response (st : string) (hs : list (string * string))
  : M unit :=
  emit (EvStartResponse st hs).

(** An outcome computed without effects, run in the monad. *)
Definition lift {A} (o : outcome A) : M A := fun s => (o, s).

Definition dquote : string := String "034"%char EmptyString.

(** The first chunk of the body of the 500 page. *)
Definition trace_page_head : string :=
  String.append
    "<html><body><h1>500 Internal Server Error</h1><div style="
    (String.append dquote
       (String.append
          "font-family:Monaco, Menlo, Consolas, 'Courier New', monospace;"
          (String.append dquote "><pre>"))).

Section Application.

(** [self._document_root] and [self.middleware]. *)
Variable document_root : string.
Variable self_middleware : list (entry thread_local).

(** [self._template_engine(template_name, model)]: the renderer of
    [www/template.py], which returns the rendered page or raises. *)
Variable template_engine : string -> mapping -> outcome pyobj.

(** The text [traceback.print_exception] writes for an exception. *)
Variable print_exception : exn -> string.

(** [Dict(document_root=self._document_root)] *)
Definition _application : dict :=
  [("document_root", PyStr document_root)].

(** [fn_exec = fn_route()] *)
Definition fn_exec (context : thread_local) (next : option (middleware thread_local))
  : M pyobj :=
  route_entry self_middleware context next.

(** The three [if] statements that turn the value of the chain into
    the body, in the order of the source. *)
Definition translate (r : pyobj) : M pyobj :=
  r <- match r with
       | PyTemplate template_name model =>
           v <- lift (template_engine template_name model) ;;
           ret (PyList [v])
       | _ => ret r
       end ;;
  r <- match r with
       | PyStr s => ret (PyList [PyBytes (Str.encode_utf8 s)])
       | PyUnicode points =>
           match Utf8.encode_bytes points with
           | Some b => ret (PyList [PyBytes b])
           | None =>
               raise (OtherError "UnicodeEncodeError"
                                 "surrogates not allowed")
           end
       | _ => ret r
       end ;;
  match r with
  | PyNone => ret (PyList [])
  | _ => ret r
  end.

(** The body of the [try] statement. *)
Definition wsgi_try : M pyobj :=
  r <- fn_exec ctx None ;;
  r <- translate r ;;
  response <- get_resp ;;
  start_response (status response) (headers response) ;;;
  ret r.

(** The three [except] clauses, tried in the order of the source. *)
Definition wsgi_except (e : exn) : M pyobj :=
  match e with
  | RedirectError e_status e_location =>
      update_resp (set_header "Location" e_location) ;;;
      response <- get_resp ;;
      start_response e_status (headers response) ;;;
      ret (PyList [])
  | HttpError e_status =>
      response <- get_resp ;;
      start_response e_status (headers response) ;;;
      ret (PyList [PyStr "<html><body><h1>"; PyStr e_status;
                   PyStr "</h1></body></html>"])
  | _ =>
      logging_exception e ;;;
      let stacks := print_exception e in
      start_response "500 Internal Server Error" [] ;;;
      ret (PyList [PyStr trace_page_head;
                   PyStr (Str.replace ">" "&gt;"
                            (Str.replace "<" "&lt;" stacks));
                   PyStr "</pre></div></body></html>"])
  end.

(** The [finally] block. *)
Definition wsgi_finally : M unit :=
  del a_application ;;; del a_request ;;; del a_response.

(** [wsgi(env, start_response)] *)
Definition wsgi (env : dict) : M pyobj :=
  set_application _application ;;;
  set_request (mkRequest env) ;;;
  set_response new_Response ;;;
  try_finally (try_except wsgi_try wsgi_except) wsgi_finally.

End Application.

(** ** The [view] decorator *)

(** The keys of a dict that can be unpacked into the keyword arguments
    of [Template(path, **r)]: every key is a [str], and none is the
    name of a parameter that has its value already. *)
Definition keywords_ok (kw : mapping) : bool :=
  forallb is_str (map fst kw)
  && negb (existsb (is_name "self") (map fst kw))
  && negb (existsb (is_name "template_name") (map fst kw)).

(** Modelled from the spec: the class [Template] of [www/template.py]
    is not part of the sources.  A [Template] carries a template name
    and a model; its constructor takes the name as [template_name] and
    the model as keyword arguments.  The call [Template(path, **r)]
    therefore raises [TypeError] when a key of [r] is not a [str], and
    when a key of [r] is [self] or [template_name]. *)
Definition Template (template_name : string) (kw : mapping) : outcome pyobj :=
  if negb (forallb is_str (map fst kw))
  then Raise (TypeError "keywords must be strings")
  else if existsb (is_name "self") (map fst kw)
  then Raise (TypeError "got multiple values for argument 'self'")
  else if existsb (is_name "template_name") (map fst kw)
  then Raise (TypeError "got multiple values for argument 'template_name'")
  else Return (PyTemplate template_name kw).

(** [view(path)(func)]: the wrapper [_wrapper], called with the
    arguments [args] of the handler. *)
Definition view {Args : Type} (path : string) (func : Args -> M pyobj)
  : Args -> M pyobj :=
  fun args =>
    r <- func args ;;
    match r with
    | PyDict d =>
        logging_info "return Template" ;;;
        lift (Template path d)
    | _ =>
        raise (ValueError "Expect return a dict when using @view() decorator.")
    end.

(** ** [init_middlewares] *)

Section Sort.

Variable A : Type.
Variable key : A -> Z.

(** [list.sort(key=key)] is a stable sort, and a stable sort has one
    result; straight insertion computes it. *)
Fixpoint insert (x : A) (l : list A) : list A :=
  match l with
  | [] => [x]
  | y :: l' =>
      if (key x <=? key y)%Z then x :: y :: l' else y :: insert x l'
  end.

Fixpoint list_sort (l : list A) : list A :=
  match l with
  | [] => []
  | x :: l' => insert x (list_sort l')
  end.

(** The order of the sort, and the test for one key. *)
Definition key_le (a b : A) : Prop := (key a <= key b)%Z.
Definition has_key (p : Z) (a : A) : bool := (key a =? p)%Z.

End Sort.

Arguments insert {A} key x l.
Arguments list_sort {A} key l.
Arguments key_le {A} key a b.
Arguments has_key {A} key p a.

Section InitMiddlewares.

Variable Context : Type.

(** [os.listdir(self._document_root + '/middlewares')] *)
Variable listdir : list string.

(** The factory a module of the package [middlewares] exports under
    its own name, already called: [Some (fn())] when
    [getattr(s_m, import_module, None)] is a callable, [None]
    otherwise.  This is the package of a directory all of whose
    modules import and all of whose factories return; [Loader], below,
    has the loop with the lookups and calls that raise. *)
Variable plugin : string -> option (entry Context).

Definition take_second (elem : entry Context) : Z := snd elem.

(** One turn of the [for] loop in which nothing raises: the list
    after it. *)
Definition load (middleware : list (entry Context)) (f : string)
  : list (entry Context) :=
  if Str.endswith f ".py" then
    let import_module := Str.replace ".py" "" f in
    match plugin import_module with
    | Some made =>
        if negb (Str.endswith import_module "__")
        then middleware ++ [made]
        else middleware
    | None => middleware
    end
  else middleware.

(** [init_middlewares]: the value of [self.middleware] after a call
    that returns. *)
Definition init_middlewares (middleware : list (entry Context))
  : list (entry Context) :=
  list_sort take_second (fold_left load listdir middleware).

End InitMiddlewares.

Arguments take_second {Context} elem.
Arguments load {Context} plugin middleware f.
Arguments init_middlewares {Context} listdir plugin middleware.

(** ** Middleware for the proofs *)

(** The ways of a middleware the framework distinguishes: answer
    without calling the continuation, return what the continuation
    returns, return it after some post-processing, or raise. *)
Inductive behaviour : Type :=
| Answer (v : pyobj)
| Forward
| Postprocess (f : pyobj -> pyobj)
| Fail (e : exn).

(** A middleware of a given behaviour that announces itself, by name,
    when it is entered. *)
Definition play {Context : Type} (name : string) (b : behaviour)
  : middleware Context :=
  fun _ next =>
    emit (EvCall name) ;;;
    match b with
    | Answer v => ret v
    | Forward => next
    | Postprocess f => r <- next ;; ret (f r)
    | Fail e => raise e
    end.

Definition calls_once (b : behaviour) : bool :=
  match b with
  | Forward | Postprocess _ => true
  | Answer _ | Fail _ => false
  end.

Definition cast : Type := list (string * behaviour * Z).

Definition chain {Context : Type} (l : cast) : list (entry Context) :=
  map (fun m => (play (fst (fst m)) (snd (fst m)), snd m)) l.

Definition names (l : cast) : list string := map (fun m => fst (fst m)) l.
Definition behaviours (l : cast) : list behaviour :=
  map (fun m => snd (fst m)) l.

(** What the post-processing of the middleware in [bs], outermost
    first, makes of the outcome of the continuation of the last one. *)
Fixpoint through (bs : list behaviour) (r : outcome pyobj) : outcome pyobj :=
  match bs with
  | [] => r
  | b :: bs' =>
      match b, through bs' r with
      | Postprocess f, Return v => Return (f v)
      | _, r' => r'
      end
  end.

(** ** States *)

(** [s] with the events [evs] added to its trace. *)
Definition record (evs : list event) (s : state) : state :=
  mkState (application s) (request s) (response s) (resp s)
          (trace s ++ evs).

(** The state [wsgi] enters its [try] statement in. *)
Definition entered (document_root : string) (env : dict) (s : state) : state :=
  mkState (Some (_application document_root)) (Some (mkRequest env))
          (Some tt) new_Response (trace s).

(** All three attributes of [ctx] are set. *)
Definition ctx_bound (s : state) : bool :=
  has_attr a_application s && has_attr a_request s && has_attr a_response s.

Definition teardown : list event :=
  [EvDel a_application; EvDel a_request; EvDel a_response].

(** [s] once the [finally] block has run. *)
Definition released (s : state) : state :=
  mkState None None None (resp s) (trace s ++ teardown).

Definition is_del (ev : event) : bool :=
  match ev with EvDel _ => true | _ => false end.

Definition is_log (ev : event) : bool :=
  match ev with EvInfo _ | EvException _ => true | _ => false end.

Definition is_del_of (a : attr) (ev : event) : bool :=
  match ev, a with
  | EvDel a_application, a_application
  | EvDel a_request, a_request
  | EvDel a_response, a_response => true
  | _, _ => false
  end.

Definition count (p : event -> bool) (evs : list event) : nat :=
  length (filter p evs).

Definition message (e : exn) : string :=
  match e with
  | RedirectError _ m | HttpError m | IndexError m | TypeError m
  | ValueError m | AttributeError m | OtherError _ m => m
  end.

(** [s] with [f] applied to the response object. *)
Definition with_resp (f : Response -> Response) (s : state) : state :=
  mkState (application s) (request s) (response s) (f (resp s)) (trace s).

(** ** The route decorators *)

Section Decorators.

Variable Args : Type.

(** A handler as a function object: what it does when called, and the
    two attributes the decorators set on it. *)
Record function : Type := mkFunction {
  code : Args -> M pyobj;
  __web_route__ : option string;
  __web_method__ : option string
}.

(** [get(path)(func)]: sets the two attributes and returns [func]. *)
Definition get (path : string) (func : function) : function :=
  mkFunction (code func) (Some path) (Some "GET").

Definition post (path : string) (func : function) : function :=
  mkFunction (code func) (Some path) (Some "POST").

Definition put (path : string) (func : function) : function :=
  mkFunction (code func) (Some path) (Some "PUT").

Definition delete (path : string) (func : function) : function :=
  mkFunction (code func) (Some path) (Some "DELETE").

(** [view(path)(func)] as a function object: [functools.wraps(func)]
    copies the attributes of [func] to [_wrapper]. *)
Definition view_decorator (path : string) (func : function) : function :=
  mkFunction (view path (code func)) (__web_route__ func)
             (__web_method__ func).

End Decorators.

Arguments mkFunction {Args} code __web_route__ __web_method__.
Arguments code {Args} f.
Arguments __web_route__ {Args} f.
Arguments __web_method__ {Args} f.
Arguments get {Args} path func.
Arguments post {Args} path func.
Arguments put {Args} path func.
Arguments delete {Args} path func.
Arguments view_decorator {Args} path func.

(** ** The application object *)

Module App.

Definition renderer : Type := string -> mapping -> outcome pyobj.

(** The attributes of a [digwebs] object. *)
Record digwebs : Type := mk {
  _running : bool;
  _document_root : string;
  _template_engine : option renderer;
  middleware : list (entry thread_local)
}.

(** [__init__(document_root)], with the [Jinja2TemplateEngine] it
    builds for [document_root/views], the [datetime] filter added,
    given as [engine]. *)
Definition __init__ (document_root : string) (engine : renderer) : digwebs :=
  mk false document_root (Some engine) [].

Definition _check_not_running (self : digwebs) : outcome unit :=
  if _running self
  then Raise (OtherError "RuntimeError" "Cannot modify digwebs when running.")
  else Return tt.

(** The setter of the property [template_engine]. *)
Definition set_template_engine (engine : renderer) (self : digwebs)
  : outcome unit * digwebs :=
  match _check_not_running self with
  | Return _ =>
      (Return tt,
       mk (_running self) (_document_root self) (Some engine)
          (middleware self))
  | Raise e => (Raise e, self)
  | Exit b => (Exit b, self)
  end.

(** [self._template_engine(name, model)], where the attribute may be
    [None]. *)
Definition call_template_engine (self : digwebs) : renderer :=
  match _template_engine self with
  | Some engine => engine
  | None => fun _ _ => Raise (TypeError "'NoneType' object is not callable")
  end.

(** The method [init_middlewares]: [self.middleware] is replaced by
    its value after the loop and the sort. *)
Definition init (listdir : list string)
    (plugin : string -> option (entry thread_local)) (self : digwebs)
  : digwebs :=
  mk (_running self) (_document_root self) (_template_engine self)
     (init_middlewares listdir plugin (middleware self)).

Section GetWsgiApplication.

Variable print_exception : exn -> string.

(** The function [wsgi] that [get_wsgi_application] returns.
    [_application] is built when the function is made, from [self] as
    it is then; [self.middleware] and [self._template_engine] are read
    when a request is served, from the object as it is then. *)
Definition application_of (self now : digwebs) (env : dict) : M pyobj :=
  wsgi (_document_root self) (middleware now) (call_template_engine now)
       print_exception env.

Definition get_wsgi_application (self : digwebs)
  : outcome (digwebs -> dict -> M pyobj) * digwebs :=
  match _check_not_running self with
  | Return _ =>
      let self' := mk true (_document_root self) (_template_engine self)
                      (middleware self) in
      (Return (application_of self'), self')
  | Raise e => (Raise e, self)
  | Exit b => (Exit b, self)
  end.

(** A call of one of the methods that change the object. *)
Inductive method : Type :=
| m_set_template_engine (engine : renderer)
| m_get_wsgi_application
| m_init_middlewares (listdir : list string)
                     (plugin : string -> option (entry thread_local)).

(** Whether the call returns, and the object after it. *)
Definition invoke (m : method) (self : digwebs) : bool * digwebs :=
  match m with
  | m_set_template_engine engine =>
      match set_template_engine engine self with
      | (Return _, self') => (true, self')
      | (_, self') => (false, self')
      end
  | m_get_wsgi_application =>
      match get_wsgi_application self with
      | (Return _, self') => (true, self')
      | (_, self') => (false, self')
      end
  | m_init_middlewares listdir plugin => (true, init listdir plugin self)
  end.

Definition is_get_wsgi_application (m : method) : bool :=
  match m with m_get_wsgi_application => true | _ => false end.

Definition is_set_template_engine (m : method) : bool :=
  match m with m_set_template_engine _ => true | _ => false end.

(** A sequence of calls: the calls that returned, and the object at
    the end. *)
Fixpoint invoke_all (ms : list method) (self : digwebs)
  : list method * digwebs :=
  match ms with
  | [] => ([], self)
  | m :: ms' =>
      let (ok, self') := invoke m self in
      let (done, self'') := invoke_all ms' self' in
      (if ok then m :: done else done, self'')
  end.

End GetWsgiApplication.

End App.

(** ** The [datetime] filter *)

Module Filter.

(** Text with characters beyond U+00FF: a list of code points. *)
Definition text : Type := list N.

(** ['%s' % n] for an [int]. *)
Definition str_of_int (n : Z) : text :=
  map N_of_ascii (list_ascii_of_string (NilZero.string_of_int (Z.to_int n))).

(** The suffixes of the four formats, and the characters of the date. *)
Definition minutes_ago : text := [0x5206; 0x949F; 0x524D]%N.
Definition hours_ago : text := [0x5C0F; 0x65F6; 0x524D]%N.
Definition days_ago : text := [0x5929; 0x524D]%N.
Definition year_sign : N := 0x5E74%N.
Definition month_sign : N := 0x6708%N.
Definition day_sign : N := 0x65E5%N.

(** [datetime_filter(t)], from [delta = int(time.time() - t)] on.
    [dt] is [datetime.datetime.fromtimestamp(t)], as year, month and
    day. *)
Definition datetime_filter (delta : Z) (dt : Z * Z * Z) : text :=
  if (delta <? 60)%Z then [0x31%N] ++ minutes_ago
  else if (delta <? 3600)%Z then str_of_int (delta / 60) ++ minutes_ago
  else if (delta <? 86400)%Z then str_of_int (delta / 3600) ++ hours_ago
  else if (delta <? 604800)%Z then str_of_int (delta / 86400) ++ days_ago
  else
    let '(year, month, day) := dt in
    str_of_int year ++ [year_sign] ++ str_of_int month ++ [month_sign]
    ++ str_of_int day ++ [day_sign].

End Filter.

(** ** [init_middlewares] with the imports that fail *)

Module Loader.

Section Loop.

Variable Context : Type.

(** What the package [middlewares] holds for a module name:
    [NotFound e] when [__import__] or [getattr(m, import_module)]
    raises [e], as for a name that is no module of the package;
    [Found None] when the module is there and
    [getattr(s_m, import_module, None)] is [None] or is not callable;
    [Found (Some o)] when it is callable and [o] is the outcome of
    calling it. *)
Inductive lookup : Type :=
| NotFound (e : exn)
| Found (fn : option (outcome (entry Context))).

Variable listdir : list string.
Variable package : string -> lookup.

(** One turn of the [for] loop on [self.middleware]: how the turn
    ends, and the list after it. *)
Definition load (middleware : list (entry Context)) (f : string)
  : outcome unit * list (entry Context) :=
  if Str.endswith f ".py" then
    let import_module := Str.replace ".py" "" f in
    match package import_module with
    | NotFound e => (Raise e, middleware)
    | Found None => (Return tt, middleware)
    | Found (Some made) =>
        if negb (Str.endswith import_module "__")
        then match made with
             | Return m => (Return tt, middleware ++ [m])
             | Raise e => (Raise e, middleware)
             | Exit b => (Exit b, middleware)
             end
        else (Return tt, middleware)
    end
  else (Return tt, middleware).

(** The [for] loop, which a turn that does not return ends. *)
Fixpoint loop (fs : list string) (middleware : list (entry Context))
  : outcome unit * list (entry Context) :=
  match fs with
  | [] => (Return tt, middleware)
  | f :: fs' =>
      match load middleware f with
      | (Return _, middleware') => loop fs' middleware'
      | stopped => stopped
      end
  end.

(** [init_middlewares]: how the call ends, and [self.middleware]
    after it.  The list is sorted only when the loop has returned. *)
Definition init_middlewares (middleware : list (entry Context))
  : outcome unit * list (entry Context) :=
  match loop listdir middleware with
  | (Return _, middleware') =>
      (Return tt, list_sort take_second middleware')
  | stopped => stopped
  end.

(** The package as [init_middlewares] above sees it when every lookup
    returns: the made middleware of a module, if any. *)
Definition plugin_of (name : string) : option (entry Context) :=
  match package name with
  | Found (Some (Return m)) => Some m
  | _ => None
  end.

End Loop.

Arguments NotFound {Context} e.
Arguments Found {Context} fn.
Arguments load {Context} package middleware f.
Arguments loop {Context} package fs middleware.
Arguments init_middlewares {Context} listdir package middleware.
Arguments plugin_of {Context} package name.

End Loader.

(** ** Leaving [wsgi] by a signal *)

Definition is_exit {A : Type} (o : outcome A) : bool :=
  match o with Exit _ => true | _ => false end.

(** Whether the [try] statement of [wsgi] is left by a signal: the
    chain is, or the template engine is when the chain returns a
    [Template]. *)
Definition left_by_signal (template_engine : string -> mapping -> outcome pyobj)
    (res : outcome pyobj) : bool :=
  match res with
  | Exit _ => true
  | Return (PyTemplate template_name model) =>
      is_exit (template_engine template_name model)
  | _ => false
  end.

(** ** Counting the calls of [start_response] *)

Definition is_start (ev : event) : bool :=
  match ev with EvStartResponse _ _ => true | _ => false end.

(** A cast sorted by priority, as [init_middlewares] sorts the list. *)
Definition by_priority (l : cast) : cast := list_sort snd l.

(** ** A sample application *)

Module Sample.

(** The state of a thread that serves no request. *)
Definition idle : state := mkState None None None new_Response [].

Definition root : string := "/srv/www".

(** A renderer that names the template it was asked for. *)
Definition engine (template_name : string) (model : mapping)
  : outcome pyobj :=
  Return (PyBytes (Str.encode_utf8 (String.append "page " template_name))).

(** A stack trace of one line. *)
Definition tb (e : exn) : string :=
  String.append "File <web.py>, in dispatch: " (message e).

(** A one-middleware application whose middleware behaves as [b]. *)
Definition app (b : behaviour) : list (entry thread_local) :=
  chain [("only", b, 1%Z)].

Definition serve (b : behaviour) : M pyobj :=
  wsgi root (app b) engine tb [("PATH_INFO", PyStr "/")].

Definition started : state :=
  entered root [("PATH_INFO", PyStr "/")] idle.

End Sample.

(** * Properties *)

(** ** The definitions on small inputs *)

Example replace_suffix : Str.replace ".py" "" "auth.py" = "auth".
Proof. reflexivity. Qed.

Example replace_every_occurrence : Str.replace ".py" "" "a.py.py" = "a".
Proof. reflexivity. Qed.

Example replace_angle : Str.replace "<" "&lt;" "a<b<" = "a&lt;b&lt;".
Proof. reflexivity. Qed.

Example endswith_py :
  Str.endswith "auth.py" ".py" = true /\ Str.endswith "auth.pyc" ".py" = false
  /\ Str.endswith "py" ".py" = false /\ Str.endswith "__init__" "__" = true.
Proof. repeat split. Qed.

(** U+00E9 is two bytes in UTF-8. *)
Example encode_e_acute :
  Str.encode_utf8 (String (ascii_of_nat 233) "") = [xc3; xa9].
Proof. reflexivity. Qed.

Example set_header_appends :
  headers (set_header "Location" "/a" new_Response) = [("Location", "/a")].
Proof. reflexivity. Qed.

Example set_header_overwrites :
  headers (set_header "X" "2" (mkResponse "200 OK" [("X", "1"); ("Y", "0")]))
  = [("X", "2"); ("Y", "0")].
Proof. reflexivity. Qed.

Example sort_is_stable :
  list_sort snd [("c", 2%Z); ("a", 1%Z); ("d", 2%Z); ("b", 1%Z)]
  = [("a", 1%Z); ("b", 1%Z); ("c", 2%Z); ("d", 2%Z)].
Proof. reflexivity. Qed.

(** A directory with two plugins, a package file and a stray file. *)
Example init_middlewares_loads :
  map snd
      (init_middlewares (Context := unit)
         ["router.py"; "__init__.py"; "notes.txt"; "auth.py"]
         (fun name =>
            if String.eqb name "router" then Some (play "router" Forward, 9%Z)
            else if String.eqb name "auth" then Some (play "auth" Forward, 1%Z)
            else if String.eqb name "__init__"
                 then Some (play "init" Forward, 0%Z)
            else None)
         [])
  = [1%Z; 9%Z].
Proof. reflexivity. Qed.

(** A request answered by the one middleware of the application. *)
Example serve_hello :
  Sample.serve (Answer (PyStr "hello")) Sample.idle =
  (Return (PyList [PyBytes [x68; x65; x6c; x6c; x6f]]),
   mkState None None None new_Response
           [EvCall "only"; EvStartResponse "200 OK" [];
            EvDel a_application; EvDel a_request; EvDel a_response]).
Proof. reflexivity. Qed.

(** A request whose middleware passes control on: the chain runs off
    the end of the list. *)
Example serve_forward :
  fst (Sample.serve Forward Sample.idle) =
  Return (PyList [PyStr trace_page_head;
                  PyStr "File &lt;web.py&gt;, in dispatch: list index out of range";
                  PyStr "</pre></div></body></html>"]).
Proof. reflexivity. Qed.

(** A middleware that deletes an attribute of [ctx] makes the
    [finally] block fail. *)
Example serve_unbound :
  fst (wsgi Sample.root
            [(fun _ _ => del a_request ;;; ret (PyStr "x"), 1%Z)]
            Sample.engine Sample.tb [] Sample.idle)
  = Raise (AttributeError "request").
Proof. reflexivity. Qed.

(** ** The state monad *)

Lemma record_nil s : record [] s = s.
Proof. destruct s; unfold record; simpl. now rewrite app_nil_r. Qed.

Lemma record_record evs evs' s :
  record evs' (record evs s) = record (evs ++ evs') s.
Proof. unfold record; simpl. now rewrite app_assoc. Qed.

Lemma emit_record ev s : emit ev s = (Return tt, record [ev] s).
Proof. reflexivity. Qed.

Lemma count_app p evs evs' : count p (evs ++ evs') = count p evs + count p evs'.
Proof. unfold count. now rewrite filter_app, length_app. Qed.

(** ** The chain *)

Section ChainFacts.

Context {C : Type}.
Variable mws : list (entry C).
Variable c : C.
Variable next : option (middleware C).

(** At an index inside the list, [dispatch] calls the middleware of
    that index with [dispatch] of the next index as continuation. *)
Lemma dispatch_step i e :
  nth_error mws i = Some e ->
  dispatch mws c next i = fst e c (dispatch mws c next (S i)).
Proof.
  intros H. rewrite dispatch_equation_1.
  generalize (inspect (nth_error mws i)). intros [o Ho].
  destruct o as [e'|]; [|congruence].
  assert (e' = e) by congruence. subst e'.
  assert (Hi : i < List.length mws) by (apply nth_error_Some; congruence).
  simpl. destruct (Nat.eqb_spec i (List.length mws)); [lia|]. reflexivity.
Qed.

(** At the length of the list, and past it, the subscript raises:
    the test [i == len(self.middleware)] is not reached. *)
Lemma dispatch_past_end i :
  List.length mws <= i ->
  dispatch mws c next i = raise (IndexError "list index out of range").
Proof.
  intros H. rewrite dispatch_equation_1.
  generalize (inspect (nth_error mws i)). intros [o Ho].
  destruct o as [e'|]; [|reflexivity].
  assert (Hi : i < List.length mws) by (apply nth_error_Some; congruence).
  lia.
Qed.

End ChainFacts.

Lemma through_Raise bs e : through bs (Raise e) = Raise e.
Proof.
  induction bs as [|b bs IH]; simpl; [reflexivity|].
  rewrite IH. now destruct b.
Qed.

Lemma through_Exit bs b : through bs (Exit b) = Exit b.
Proof.
  induction bs as [|b' bs IH]; simpl; [reflexivity|].
  rewrite IH. now destruct b'.
Qed.

Lemma chain_length {C : Type} l : List.length (@chain C l) = List.length l.
Proof. unfold chain. apply length_map. Qed.

Lemma nth_error_middle {A : Type} (pre : list A) x post :
  nth_error (pre ++ x :: post) (List.length pre) = Some x.
Proof.
  rewrite nth_error_app2 by lia. now rewrite Nat.sub_diag.
Qed.

(** A run of middleware that each call their continuation once: they
    are entered one after the other, in the order of the list, control
    reaches the index after the run, and the outcome found there comes
    back through their post-processing. *)
Lemma dispatch_through {C : Type} (c : C) next (l : cast) :
  forallb calls_once (behaviours l) = true ->
  forall (pre tail : list (entry C)) (s : state),
    dispatch (pre ++ chain l ++ tail) c next (List.length pre) s =
    let (r, s') :=
      dispatch (pre ++ chain l ++ tail) c next
               (List.length pre + List.length l)
               (record (map EvCall (names l)) s) in
    (through (behaviours l) r, s').
Proof.
  induction l as [|[[n b] p] l IH]; intros Hl pre tail s.
  - simpl. rewrite Nat.add_0_r, record_nil.
    now destruct (dispatch (pre ++ tail) c next (List.length pre) s).
  - simpl in Hl. apply andb_prop in Hl. destruct Hl as [Hb Hl].
    set (mws := pre ++ chain ((n, b, p) :: l) ++ tail).
    assert (Hlist : mws = (pre ++ [(play n b, p)]) ++ chain l ++ tail)
      by (unfold mws; simpl; now rewrite <- app_assoc).
    assert (Hnth : nth_error mws (List.length pre) = Some (play n b, p))
      by (unfold mws; simpl; apply nth_error_middle).
    specialize (IH Hl (pre ++ [(play n b, p)]) tail (record [EvCall n] s)).
    rewrite length_app, Nat.add_comm in IH. simpl in IH.
    rewrite <- Hlist, record_record in IH. clearbody mws.
    rewrite (dispatch_step _ _ _ _ _ Hnth).
    replace (List.length pre + List.length ((n, b, p) :: l))
      with (S (List.length pre + List.length l)) by (simpl; lia).
    simpl in *.
    destruct b; try discriminate; unfold play, bind;
      rewrite emit_record, IH;
      destruct (dispatch mws c next (S (List.length pre + List.length l))
                         (record (EvCall n :: map EvCall (names l)) s))
        as [[v|e|q] s']; simpl;
      try rewrite through_Raise; try rewrite through_Exit; try reflexivity.
    all: destruct (through (behaviours l) (Return v)); reflexivity.
Qed.

(** C1.  As specified, a chain of N middleware with a terminal handler
    calls each middleware once, in the order of the list, then the
    terminal handler once, and returns its result.  What [route_entry]
    does: when every middleware calls its continuation once, each is
    entered once, in the order of the list, and the continuation of the
    last one raises [IndexError]; whatever [next] is, it is not called
    and nothing is returned. *)
Theorem C1_terminal_never_called {C : Type} (c : C)
    (next : option (middleware C)) (l : cast) (s : state) :
  forallb calls_once (behaviours l) = true ->
  route_entry (chain l) c next s =
  (Raise (IndexError "list index out of range"),
   record (map EvCall (names l)) s).
Proof.
  intros Hl. unfold route_entry.
  pose proof (dispatch_through c next l Hl [] [] s) as H.
  simpl in H. rewrite app_nil_r in H. rewrite H.
  rewrite dispatch_past_end by (rewrite chain_length; lia).
  unfold raise. now rewrite through_Raise.
Qed.

Lemma C1_terminal_never_called_witness :
  route_entry
    (chain [("first", Forward, 1%Z);
            ("second", Postprocess (fun r => PyList [r]), 2%Z)])
    tt (Some (play "terminal" (Answer (PyStr "ok"))))
    (mkState None None None new_Response []) =
  (Raise (IndexError "list index out of range"),
   mkState None None None new_Response [EvCall "first"; EvCall "second"]).
Proof.
  apply (C1_terminal_never_called tt
           (Some (play "terminal" (Answer (PyStr "ok"))))
           [("first", Forward, 1%Z);
            ("second", Postprocess (fun r => PyList [r]), 2%Z)]
           (mkState None None None new_Response [])).
  reflexivity.
Defined.

(** C2.  A middleware that never calls its continuation (what it does
    is the same whatever continuation it is given) ends the chain: the
    outcome of [dispatch] at its index is its own outcome, and when the
    middleware before it each call their continuation once, the outcome
    of the chain is that outcome, passed through their post-processing
    and unchanged when they have none.  Neither depends on the
    middleware after it or on the terminal handler, so none of them
    runs. *)
Theorem C2_short_circuit {C : Type} (c : C) (next : option (middleware C))
    (l : cast) (fn : middleware C) (p : Z) (post : list (entry C))
    (k : M pyobj) (s : state) :
  forallb calls_once (behaviours l) = true ->
  (forall (k1 k2 : M pyobj) (s' : state), fn c k1 s' = fn c k2 s') ->
  let mws := chain l ++ (fn, p) :: post in
  (forall s' : state, dispatch mws c next (List.length l) s' = fn c k s')
  /\ route_entry mws c next s =
     (let (r, s') := fn c k (record (map EvCall (names l)) s) in
      (through (behaviours l) r, s')).
Proof.
  intros Hl Hfn mws.
  assert (Hat : forall s', dispatch mws c next (List.length l) s' = fn c k s').
  { intros s'. rewrite (dispatch_step mws c next _ (fn, p)).
    - apply Hfn.
    - unfold mws. rewrite <- (chain_length (C := C) l).
      apply nth_error_middle. }
  split; [exact Hat|].
  unfold route_entry.
  pose proof (dispatch_through c next l Hl [] ((fn, p) :: post) s) as H.
  simpl in H. fold mws in H. rewrite H, Hat. reflexivity.
Qed.

Lemma C2_short_circuit_witness :
  let mws := chain [("log", Forward, 1%Z)]
             ++ (play "auth" (Answer (PyStr "denied")), 2%Z)
             :: chain [("late", Forward, 3%Z)] in
  let s := mkState None None None new_Response [] in
  (forall s' : state,
     dispatch mws tt (Some (play "terminal" (Answer (PyStr "ok")))) 1 s'
     = play "auth" (Answer (PyStr "denied")) tt (ret PyNone) s')
  /\ route_entry mws tt (Some (play "terminal" (Answer (PyStr "ok")))) s
     = (Return (PyStr "denied"),
        mkState None None None new_Response [EvCall "log"; EvCall "auth"]).
Proof.
  apply (C2_short_circuit tt
           (Some (play "terminal" (Answer (PyStr "ok"))))
           [("log", Forward, 1%Z)]
           (play "auth" (Answer (PyStr "denied"))) 2%Z
           (chain [("late", Forward, 3%Z)]) (ret PyNone)
           (mkState None None None new_Response [])).
  - reflexivity.
  - intros k1 k2 s'. reflexivity.
Defined.

(** ** The entry point *)

Section WsgiFacts.

Variable document_root : string.
Variable mws : list (entry thread_local).
Variable template_engine : string -> mapping -> outcome pyobj.
Variable print_exception : exn -> string.

Local Abbreviation the_wsgi :=
  (wsgi document_root mws template_engine print_exception).
Local Abbreviation the_try := (wsgi_try mws template_engine).
Local Abbreviation the_except := (wsgi_except print_exception).

(** [wsgi] sets the three attributes of [ctx] and runs its [try]
    statement in the state that results. *)
Lemma wsgi_unfold env s :
  the_wsgi env s =
  try_finally (try_except the_try the_except) wsgi_finally
              (entered document_root env s).
Proof. reflexivity. Qed.

(** The [finally] block deletes the three attributes when they are
    there. *)
Lemma wsgi_finally_bound s :
  ctx_bound s = true -> wsgi_finally s = (Return tt, released s).
Proof.
  destruct s as [[a|] [r|] [u|] rs tr]; try discriminate.
  intros _. unfold wsgi_finally, bind, del, released, teardown. simpl.
  unfold emit. simpl. now rewrite <- !app_assoc.
Qed.

Lemma wsgi_try_Raise s e s1 :
  fn_exec mws ctx None s = (Raise e, s1) -> the_try s = (Raise e, s1).
Proof.
  intros H. unfold wsgi_try, bind. now rewrite H.
Qed.

Lemma wsgi_except_RedirectError st loc s :
  the_except (RedirectError st loc) s =
  (Return (PyList []),
   record [EvStartResponse st
             (headers (set_header "Location" loc (resp s)))]
          (with_resp (set_header "Location" loc) s)).
Proof. reflexivity. Qed.

Lemma wsgi_except_HttpError st s :
  the_except (HttpError st) s =
  (Return (PyList [PyStr "<html><body><h1>"; PyStr st;
                   PyStr "</h1></body></html>"]),
   record [EvStartResponse st (headers (resp s))] s).
Proof. reflexivity. Qed.

Lemma wsgi_except_Exception e s :
  is_RedirectError e = false -> is_HttpError e = false ->
  the_except e s =
  (Return (PyList [PyStr trace_page_head;
                   PyStr (Str.replace ">" "&gt;"
                            (Str.replace "<" "&lt;" (print_exception e)));
                   PyStr "</pre></div></body></html>"]),
   record [EvException e; EvStartResponse "500 Internal Server Error" []] s).
Proof.
  intros Hr Hh.
  destruct e; try discriminate;
    unfold wsgi_except, bind,
           logging_exception, start_response;
    rewrite !emit_record, record_record; reflexivity.
Qed.

(** Every [except] clause returns a list of chunks, calls
    [start_response] once, leaves the attributes of [ctx] alone and
    deletes nothing. *)
Lemma wsgi_except_effect e s :
  exists body s' evs,
    the_except e s = (Return body, s')
    /\ (application s' = application s /\ request s' = request s
        /\ response s' = response s)
    /\ trace s' = trace s ++ evs
    /\ count is_del evs = 0 /\ count is_start evs = 1
    /\ (is_None body = false /\ is_str body = false
        /\ is_Template body = false).
Proof.
  destruct (is_RedirectError e) eqn:Hr; [|destruct (is_HttpError e) eqn:Hh].
  - destruct e; try discriminate. rewrite wsgi_except_RedirectError.
    do 3 eexists. repeat split; reflexivity.
  - destruct e; try discriminate. rewrite wsgi_except_HttpError.
    do 3 eexists. repeat split; reflexivity.
  - rewrite (wsgi_except_Exception e s Hr Hh).
    do 3 eexists. repeat split; reflexivity.
Qed.

(** What [translate] does costs no effect. *)
Lemma translate_pure r s :
  exists o, translate template_engine r s = (o, s).
Proof.
  unfold translate, bind, lift, ret, raise.
  destruct r; try (eexists; reflexivity).
  - destruct (Utf8.encode_bytes points); eexists; reflexivity.
  - destruct (template_engine template_name model); eexists; reflexivity.
Qed.

(** The [try] statement with its [except] clauses, from the outcome of
    the chain on.  It never raises an [Exception].  It returns a body,
    a list or the value of the chain passed through, after one call of
    [start_response]; or it is left by the signal that left the chain
    or the template engine, without a call of [start_response].
    Either way it leaves the attributes of [ctx] as the chain left
    them and deletes nothing. *)
Lemma protected_effect s res s1 :
  fn_exec mws ctx None s = (res, s1) ->
  exists out s' evs,
    try_except the_try the_except s = (out, s')
    /\ (application s' = application s1 /\ request s' = request s1
        /\ response s' = response s1)
    /\ trace s' = trace s1 ++ evs
    /\ count is_del evs = 0
    /\ match out with
       | Return body =>
           left_by_signal template_engine res = false
           /\ count is_start evs = 1
           /\ (is_None body = false /\ is_str body = false
               /\ is_Template body = false)
       | Raise _ => False
       | Exit b =>
           left_by_signal template_engine res = true
           /\ count is_start evs = 0
           /\ (res = Exit b
               \/ exists n m, res = Return (PyTemplate n m)
                              /\ template_engine n m = Exit b)
       end.
Proof.
  intros H.
  assert (Hexc : forall e, left_by_signal template_engine res = false ->
             exists out s' evs,
               the_except e s1 = (out, s')
               /\ (application s' = application s1 /\ request s' = request s1
                   /\ response s' = response s1)
               /\ trace s' = trace s1 ++ evs
               /\ count is_del evs = 0
               /\ match out with
                  | Return body =>
                      left_by_signal template_engine res = false
                      /\ count is_start evs = 1
                      /\ (is_None body = false /\ is_str body = false
                          /\ is_Template body = false)
                  | Raise _ => False
                  | Exit b =>
                      left_by_signal template_engine res = true
                      /\ count is_start evs = 0
                      /\ (res = Exit b
                          \/ exists n m, res = Return (PyTemplate n m)
                                         /\ template_engine n m = Exit b)
                  end).
  { intros e Hs.
    destruct (wsgi_except_effect e s1)
      as (body & s' & evs & He & Ha & Ht & Hd & Hst & Hb).
    exists (Return body), s', evs. rewrite He. repeat split; tauto. }
  assert (Hs0 : trace s1 = trace s1 ++ []) by (now rewrite app_nil_r).
  unfold try_except, wsgi_try, bind. rewrite H.
  destruct res as [r|e|b].
  - unfold translate, bind, lift, ret, raise, get_resp, start_response.
    destruct r;
      try (exists (Return (PyList [])), (record [EvStartResponse (status (resp s1)) (headers (resp s1))] s1), [EvStartResponse (status (resp s1)) (headers (resp s1))]; repeat split; reflexivity);
      try (do 3 eexists; repeat split; reflexivity).
    + destruct (Utf8.encode_bytes points);
        [do 3 eexists; repeat split; reflexivity|now apply Hexc].
    + destruct (template_engine template_name model) as [page|e|b] eqn:He.
      * do 3 eexists. repeat split; try reflexivity.
        simpl. now rewrite He.
      * apply Hexc. simpl. now rewrite He.
      * exists (Exit b), s1, []. repeat split; try assumption; try reflexivity.
        -- simpl. now rewrite He.
        -- right. now exists template_name, model.
  - now apply Hexc.
  - exists (Exit b), s1, []. repeat split; try assumption; try reflexivity.
    now left.
Qed.

End WsgiFacts.

(** ** Escaping *)

Section Escaping.

Lemma has_char_append x a b :
  Str.has_char x (String.append a b) = Str.has_char x a || Str.has_char x b.
Proof.
  induction a as [|ch a IH]; simpl; [reflexivity|].
  rewrite IH. now rewrite orb_assoc.
Qed.

(** Replacing a single character goes through the string character
    by character. *)
Lemma replace_char c new a s :
  Str.replace (String c "") new (String a s) =
  if Ascii.eqb c a
  then String.append new (Str.replace (String c "") new s)
  else String a (Str.replace (String c "") new s).
Proof.
  unfold Str.replace. simpl. rewrite andb_true_r. reflexivity.
Qed.

(** After [s.replace(c, new)] no [c] is left, unless [new] has one. *)
Lemma replace_removes c new s :
  Str.has_char c new = false ->
  Str.has_char c (Str.replace (String c "") new s) = false.
Proof.
  intros Hnew. induction s as [|a s IH]; [reflexivity|].
  rewrite replace_char. destruct (Ascii.eqb c a) eqn:E.
  - now rewrite has_char_append, Hnew, IH.
  - simpl. rewrite IH, orb_false_r. now rewrite Ascii.eqb_sym.
Qed.

(** [s.replace(c, new)] brings in no character that neither [s] nor
    [new] has. *)
Lemma replace_brings_none x c new s :
  Str.has_char x s = false -> Str.has_char x new = false ->
  Str.has_char x (Str.replace (String c "") new s) = false.
Proof.
  intros Hs Hnew. induction s as [|a s IH]; [reflexivity|].
  simpl in Hs. apply orb_false_elim in Hs. destruct Hs as [Ha Hs].
  rewrite replace_char. destruct (Ascii.eqb c a).
  - now rewrite has_char_append, Hnew, IH.
  - simpl. now rewrite Ha, IH.
Qed.

(** The escaped trace has no angle bracket. *)
Lemma escaped_no_bracket t :
  let escaped := Str.replace ">" "&gt;" (Str.replace "<" "&lt;" t) in
  Str.has_char "<" escaped = false /\ Str.has_char ">" escaped = false.
Proof.
  split.
  - apply replace_brings_none; [|reflexivity].
    now apply replace_removes.
  - now apply replace_removes.
Qed.

End Escaping.

Lemma set_header_in_In name value hs :
  In (name, value) (set_header_in name value hs).
Proof.
  induction hs as [|[n v] hs IH]; simpl; [now left|].
  destruct (String.eqb_spec n name) as [->|]; [now left|now right].
Qed.

(** When no two headers share a name, [set_header(name, value)] leaves
    [value] as the only value of the header [name]. *)
Lemma set_header_in_value name value v hs :
  NoDup (map fst hs) ->
  In (name, v) (set_header_in name value hs) -> v = value.
Proof.
  induction hs as [|[n w] hs IH]; simpl; intros Hnd Hin.
  - destruct Hin as [Hin|[]]. congruence.
  - inversion Hnd as [|? ? Hn Hnd']; subst.
    destruct (String.eqb_spec n name) as [->|Hne].
    + destruct Hin as [Hin|Hin]; [congruence|].
      exfalso. apply Hn. now apply (in_map fst) in Hin.
    + destruct Hin as [Hin|Hin]; [congruence|]. now apply IH.
Qed.

(** ** What the server receives *)

(** When the [try] statement ends with a body and the attributes of
    [ctx] are in place, [wsgi] returns that body after the [finally]
    block has run. *)
Lemma wsgi_returns document_root mws template_engine print_exception
    env s body s' :
  try_except (wsgi_try mws template_engine) (wsgi_except print_exception)
             (entered document_root env s) = (Return body, s') ->
  ctx_bound s' = true ->
  wsgi document_root mws template_engine print_exception env s =
  (Return body, released s').
Proof.
  intros Hp Hb. rewrite wsgi_unfold. unfold try_finally.
  rewrite Hp, (wsgi_finally_bound s' Hb). reflexivity.
Qed.

Lemma wsgi_handles document_root mws template_engine print_exception
    env s e s1 body s' :
  fn_exec mws ctx None (entered document_root env s) = (Raise e, s1) ->
  wsgi_except print_exception e s1 = (Return body, s') ->
  ctx_bound s' = true ->
  wsgi document_root mws template_engine print_exception env s =
  (Return body, released s').
Proof.
  intros Hrun He Hb. apply wsgi_returns; [|exact Hb].
  unfold try_except.
  now rewrite (wsgi_try_Raise mws template_engine _ _ _ Hrun).
Qed.

(** C4.  When the chain raises an exception that is neither a
    [RedirectError] nor an [HttpError], [wsgi] logs the exception (one
    log entry, the only one it emits), starts the response with status
    "500 Internal Server Error" and no header, and returns the 500 page:
    the text of the stack trace, with "<" replaced by "&lt;" and ">" by
    "&gt;" so that no angle bracket is left in it, between [<pre>] and
    [</pre>]. *)
Theorem C4_unexpected_fault document_root mws template_engine
    print_exception env s e s1 :
  fn_exec mws ctx None (entered document_root env s) = (Raise e, s1) ->
  ctx_bound s1 = true ->
  is_RedirectError e = false ->
  is_HttpError e = false ->
  let escaped :=
    Str.replace ">" "&gt;" (Str.replace "<" "&lt;" (print_exception e)) in
  let events := [EvException e;
                 EvStartResponse "500 Internal Server Error" []] in
  wsgi document_root mws template_engine print_exception env s =
  (Return (PyList [PyStr trace_page_head; PyStr escaped;
                   PyStr "</pre></div></body></html>"]),
   released (record events s1))
  /\ Str.has_char "<" escaped = false
  /\ Str.has_char ">" escaped = false
  /\ Str.endswith trace_page_head "<pre>" = true
  /\ count is_log events = 1.
Proof.
  intros Hrun Hb Hr Hh escaped events.
  split; [|split; [|split; [|split]]]; try reflexivity;
    try apply escaped_no_bracket.
  apply (wsgi_handles _ _ _ _ _ _ _ _ _ _ Hrun
           (wsgi_except_Exception print_exception e s1 Hr Hh)).
  exact Hb.
Qed.

(** C5.  When the chain raises a [RedirectError] with a status and a
    location, [wsgi] sets the header [Location] of the response to the
    location, starts the response with the status of the exception and
    the headers of the response, which contain [Location] with that
    location, and returns an empty body. *)
Theorem C5_redirect document_root mws template_engine print_exception
    env s st loc s1 :
  fn_exec mws ctx None (entered document_root env s)
  = (Raise (RedirectError st loc), s1) ->
  ctx_bound s1 = true ->
  let hs := headers (set_header "Location" loc (resp s1)) in
  wsgi document_root mws template_engine print_exception env s =
  (Return (PyList []),
   released (record [EvStartResponse st hs]
                    (with_resp (set_header "Location" loc) s1)))
  /\ In ("Location", loc) hs.
Proof.
  intros Hrun Hb hs. split; [|apply set_header_in_In].
  apply (wsgi_handles _ _ _ _ _ _ _ _ _ _ Hrun
           (wsgi_except_RedirectError print_exception st loc s1)).
  exact Hb.
Qed.

(** C6.  When the chain raises an [HttpError] with a status line,
    [wsgi] starts the response with that status line and the headers of
    the response, logs nothing, and returns a page of three chunks, the
    status line between [<html><body><h1>] and [</h1></body></html>]:
    the text of the stack trace is no part of it. *)
Theorem C6_declared_error document_root mws template_engine print_exception
    env s st s1 :
  fn_exec mws ctx None (entered document_root env s)
  = (Raise (HttpError st), s1) ->
  ctx_bound s1 = true ->
  let events := [EvStartResponse st (headers (resp s1))] in
  wsgi document_root mws template_engine print_exception env s =
  (Return (PyList [PyStr "<html><body><h1>"; PyStr st;
                   PyStr "</h1></body></html>"]),
   released (record events s1))
  /\ count is_log events = 0.
Proof.
  intros Hrun Hb events. split; [|reflexivity].
  apply (wsgi_handles _ _ _ _ _ _ _ _ _ _ Hrun
           (wsgi_except_HttpError print_exception st s1)).
  exact Hb.
Qed.

Lemma C4_unexpected_fault_witness :
  let e := OtherError "KeyError" "<lambda>" in
  let s1 := record [EvCall "only"] Sample.started in
  Sample.serve (Fail e) Sample.idle =
  (Return (PyList [PyStr trace_page_head;
                   PyStr "File &lt;web.py&gt;, in dispatch: &lt;lambda&gt;";
                   PyStr "</pre></div></body></html>"]),
   released (record [EvException e;
                     EvStartResponse "500 Internal Server Error" []] s1)).
Proof.
  intros e s1.
  apply (C4_unexpected_fault Sample.root (Sample.app (Fail e)) Sample.engine
           Sample.tb [("PATH_INFO", PyStr "/")] Sample.idle e s1);
    reflexivity.
Defined.

Lemma C5_redirect_witness :
  let s1 := record [EvCall "only"] Sample.started in
  Sample.serve (Fail (RedirectError "302 Found" "/login")) Sample.idle =
  (Return (PyList []),
   released (record [EvStartResponse "302 Found" [("Location", "/login")]]
                    (with_resp (set_header "Location" "/login") s1)))
  /\ In ("Location", "/login") [("Location", "/login")].
Proof.
  intros s1.
  apply (C5_redirect Sample.root
           (Sample.app (Fail (RedirectError "302 Found" "/login")))
           Sample.engine Sample.tb [("PATH_INFO", PyStr "/")] Sample.idle
           "302 Found" "/login" s1);
    reflexivity.
Defined.

Lemma C6_declared_error_witness :
  let s1 := record [EvCall "only"] Sample.started in
  Sample.serve (Fail (HttpError "404 Not Found")) Sample.idle =
  (Return (PyList [PyStr "<html><body><h1>"; PyStr "404 Not Found";
                   PyStr "</h1></body></html>"]),
   released (record [EvStartResponse "404 Not Found" []] s1))
  /\ count is_log [EvStartResponse "404 Not Found" []] = 0.
Proof.
  intros s1.
  apply (C6_declared_error Sample.root
           (Sample.app (Fail (HttpError "404 Not Found")))
           Sample.engine Sample.tb [("PATH_INFO", PyStr "/")] Sample.idle
           "404 Not Found" s1);
    reflexivity.
Defined.

Lemma count_del_of a evs :
  count is_del evs = 0 -> count (is_del_of a) evs = 0.
Proof.
  unfold count. induction evs as [|ev evs IH]; [reflexivity|].
  simpl. destruct ev; simpl; try exact IH; try discriminate.
Qed.

Lemma count_del_of_teardown a : count (is_del_of a) teardown = 1.
Proof. now destruct a. Qed.

(** C7, as specified, at a middleware that deletes [ctx.request]
    and returns: the [finally] block deletes [ctx.application], fails
    at [del ctx.request] and never reaches [del ctx.response]; [wsgi]
    raises [AttributeError] with [ctx.response] still set. *)
Lemma C7_teardown_counterexample :
  let mws := [(fun (_ : thread_local) (_ : M pyobj) =>
                 del a_request ;;; ret (PyStr "x"), 1%Z)] in
  exists s2,
    wsgi Sample.root mws Sample.engine Sample.tb [] Sample.idle
    = (Raise (AttributeError "request"), s2)
    /\ response s2 = Some tt
    /\ count (is_del_of a_response) (trace s2) = 0
    /\ ~ (forall a, count (is_del_of a) (trace s2) = 1).
Proof.
  intros mws. eexists. split; [reflexivity|]. split; [reflexivity|].
  split; [reflexivity|]. intros H. specialize (H a_response). discriminate.
Qed.

(** C7, amended.  When the chain has left the three attributes of
    [ctx] in place, then whatever its outcome (a value, a
    [RedirectError], an [HttpError], any other exception, or a signal
    that no [except] clause catches), [wsgi] ends with the three
    attributes deleted; the three deletions are the last effects of
    the request and the only deletions [wsgi] makes, so each attribute
    is deleted once.  [wsgi] then returns a body, or, when a signal
    left the [try] statement, passes that signal on; it raises no
    [Exception]. *)
Theorem C7_teardown_once document_root mws template_engine print_exception
    env s res s1 :
  fn_exec mws ctx None (entered document_root env s) = (res, s1) ->
  ctx_bound s1 = true ->
  exists out s2 evs,
    wsgi document_root mws template_engine print_exception env s
    = (out, s2)
    /\ application s2 = None /\ request s2 = None /\ response s2 = None
    /\ trace s2 = trace s1 ++ evs ++ teardown
    /\ count is_del evs = 0
    /\ (forall a, count (is_del_of a) (trace s2)
                  = count (is_del_of a) (trace s1) + 1)
    /\ (forall e, out <> Raise e)
    /\ (forall b, res = Exit b -> out = Exit b)
    /\ (left_by_signal template_engine res = false ->
        exists body, out = Return body).
Proof.
  intros Hrun Hb.
  destruct (protected_effect mws template_engine print_exception _ _ _ Hrun)
    as (out & s' & evs & Hp & (Ha & Hr & Hu) & Htr & Hdel & Hout).
  assert (Hb' : ctx_bound s' = true).
  { unfold ctx_bound, has_attr in *. now rewrite Ha, Hr, Hu. }
  exists out, (released s'), evs.
  split.
  { rewrite wsgi_unfold. unfold try_finally.
    now rewrite Hp, (wsgi_finally_bound s' Hb'). }
  repeat (split; [reflexivity|]).
  assert (Ht : trace (released s') = trace s1 ++ evs ++ teardown)
    by (simpl; now rewrite Htr, <- app_assoc).
  split; [exact Ht|]. split; [exact Hdel|]. split; [|split; [|split]].
  - intros a. rewrite Ht, !count_app, (count_del_of a evs Hdel),
      count_del_of_teardown. lia.
  - intros e ->. exact Hout.
  - intros b ->. destruct out as [body|e|b']; [|contradiction|].
    + destruct Hout as [Hs _]. discriminate.
    + destruct Hout as (_ & _ & [Heq|(n & m & Heq & _)]); congruence.
  - intros Hs. destruct out as [body|e|b]; [now exists body|contradiction|].
    destruct Hout as [Hs' _]. congruence.
Qed.

Lemma C7_teardown_once_witness :
  exists out s2 evs,
    wsgi Sample.root
         [(fun (_ : thread_local) (_ : M pyobj) => exit (SystemExit 1), 1%Z)]
         Sample.engine Sample.tb [] Sample.idle
    = (out, s2)
    /\ application s2 = None /\ request s2 = None /\ response s2 = None
    /\ trace s2 = [] ++ evs ++ teardown
    /\ count is_del evs = 0
    /\ (forall a, count (is_del_of a) (trace s2)
                  = count (is_del_of a) [] + 1)
    /\ (forall e, out <> Raise e)
    /\ (forall b, @Exit pyobj (SystemExit 1) = Exit b -> out = Exit b)
    /\ (left_by_signal Sample.engine (Exit (SystemExit 1)) = false ->
        exists body, out = Return body).
Proof.
  apply (C7_teardown_once Sample.root
           [(fun (_ : thread_local) (_ : M pyobj) => exit (SystemExit 1), 1%Z)]
           Sample.engine Sample.tb [] Sample.idle
           (Exit (SystemExit 1)) (entered Sample.root [] Sample.idle));
    reflexivity.
Defined.

(** ** UTF-8 *)

Section Utf8Facts.

Local Open Scope N_scope.

Lemma to_N_byte_of_N n : n < 256 -> Byte.to_N (Utf8.byte_of_N n) = n.
Proof.
  intros H. unfold Utf8.byte_of_N.
  destruct (Byte.of_N n) as [b|] eqn:E.
  - now apply Byte.to_of_N.
  - apply Byte.of_N_None_iff in E. lia.
Qed.

Lemma decode_cons b0 r0 :
  Utf8.decode (b0 :: r0) =
  if b0 <? 0x80 then option_map (cons b0) (Utf8.decode r0)
  else if b0 <? 0xC0 then None
  else if b0 <? 0xE0 then
    match r0 with
    | b1 :: r1 =>
        let cp := (b0 - 0xC0) * 64 + (b1 - 0x80) in
        if Utf8.continues b1 && (0x80 <=? cp)
        then option_map (cons cp) (Utf8.decode r1) else None
    | _ => None
    end
  else if b0 <? 0xF0 then
    match r0 with
    | b1 :: b2 :: r2 =>
        let cp := (b0 - 0xE0) * 4096 + (b1 - 0x80) * 64 + (b2 - 0x80) in
        if Utf8.continues b1 && Utf8.continues b2 && (0x800 <=? cp)
           && negb ((0xD800 <=? cp) && (cp <=? 0xDFFF))
        then option_map (cons cp) (Utf8.decode r2) else None
    | _ => None
    end
  else if b0 <? 0xF8 then
    match r0 with
    | b1 :: b2 :: b3 :: r3 =>
        let cp := (b0 - 0xF0) * 262144 + (b1 - 0x80) * 4096
                  + (b2 - 0x80) * 64 + (b3 - 0x80) in
        if Utf8.continues b1 && Utf8.continues b2 && Utf8.continues b3
           && (0x10000 <=? cp) && (cp <? 0x110000)
        then option_map (cons cp) (Utf8.decode r3) else None
    | _ => None
    end
  else None.
Proof. reflexivity. Qed.

Ltac arith := zify; Z.to_euclidean_division_equations; lia.

Lemma continues_low x : Utf8.continues (0x80 + x mod 64) = true.
Proof.
  unfold Utf8.continues. apply andb_true_intro. split.
  - apply N.leb_le. arith.
  - apply N.ltb_lt. arith.
Qed.

Lemma app1 {A} (a : A) r : [a] ++ r = a :: r. Proof. reflexivity. Qed.
Lemma app2 {A} (a b : A) r : [a; b] ++ r = a :: b :: r.
Proof. reflexivity. Qed.
Lemma app3 {A} (a b c : A) r : [a; b; c] ++ r = a :: b :: c :: r.
Proof. reflexivity. Qed.
Lemma app4 {A} (a b c d : A) r :
  [a; b; c; d] ++ r = a :: b :: c :: d :: r.
Proof. reflexivity. Qed.

Ltac pick_lt x y :=
  destruct (N.ltb_spec x y); [try (exfalso; arith)|try (exfalso; arith)].

Ltac known H :=
  match type of H with
  | Some ?x = Some ?bs =>
      assert (bs = x) by congruence; subst bs; clear H
  end.

Lemma decode_encode_point cp bs rest :
  Utf8.encode_point cp = Some bs ->
  Utf8.decode (bs ++ rest) = option_map (cons cp) (Utf8.decode rest).
Proof.
  unfold Utf8.encode_point.
  destruct (N.ltb_spec cp 0x80) as [H1|H1].
  { intros H. known H. rewrite app1, decode_cons.
    destruct (N.ltb_spec cp 0x80); [reflexivity|lia]. }
  destruct (N.ltb_spec cp 0x800) as [H2|H2].
  { intros H. known H. rewrite app2, decode_cons.
    pick_lt (0xC0 + cp / 64) 0x80. pick_lt (0xC0 + cp / 64) 0xC0.
    pick_lt (0xC0 + cp / 64) 0xE0.
    cbv beta iota zeta. rewrite continues_low.
    replace ((0xC0 + cp / 64 - 0xC0) * 64 + (0x80 + cp mod 64 - 0x80))
      with cp by arith.
    destruct (N.leb_spec 0x80 cp); [reflexivity|lia]. }
  destruct (N.leb_spec 0xD800 cp) as [H3|H3];
    destruct (N.leb_spec cp 0xDFFF) as [H4|H4];
    cbv beta iota delta [andb]; try discriminate.
  all: destruct (N.ltb_spec cp 0x10000) as [H5|H5]; try (exfalso; lia).
  all: try (destruct (N.ltb_spec cp 0x110000) as [H6|H6]; [|discriminate]).
  all: intros H; known H.
  - (* three bytes, below the surrogates *)
    rewrite app3, decode_cons.
    pick_lt (0xE0 + cp / 4096) 0x80. pick_lt (0xE0 + cp / 4096) 0xC0.
    pick_lt (0xE0 + cp / 4096) 0xE0. pick_lt (0xE0 + cp / 4096) 0xF0.
    cbv beta iota zeta. rewrite !continues_low.
    replace ((0xE0 + cp / 4096 - 0xE0) * 4096
             + (0x80 + (cp / 64) mod 64 - 0x80) * 64
             + (0x80 + cp mod 64 - 0x80)) with cp by arith.
    destruct (N.leb_spec 0x800 cp); [|lia].
    destruct (N.leb_spec 0xD800 cp); [|reflexivity].
    destruct (N.leb_spec cp 0xDFFF); [lia|reflexivity].
  - (* four bytes *)
    rewrite app4, decode_cons.
    pick_lt (0xF0 + cp / 262144) 0x80. pick_lt (0xF0 + cp / 262144) 0xC0.
    pick_lt (0xF0 + cp / 262144) 0xE0. pick_lt (0xF0 + cp / 262144) 0xF0.
    pick_lt (0xF0 + cp / 262144) 0xF8.
    cbv beta iota zeta. rewrite !continues_low.
    replace ((0xF0 + cp / 262144 - 0xF0) * 262144
             + (0x80 + (cp / 4096) mod 64 - 0x80) * 4096
             + (0x80 + (cp / 64) mod 64 - 0x80) * 64
             + (0x80 + cp mod 64 - 0x80)) with cp by arith.
    destruct (N.leb_spec 0x10000 cp); [|lia].
    destruct (N.ltb_spec cp 0x110000); [reflexivity|lia].
  - (* three bytes, above the surrogates *)
    rewrite app3, decode_cons.
    pick_lt (0xE0 + cp / 4096) 0x80. pick_lt (0xE0 + cp / 4096) 0xC0.
    pick_lt (0xE0 + cp / 4096) 0xE0. pick_lt (0xE0 + cp / 4096) 0xF0.
    cbv beta iota zeta. rewrite !continues_low.
    replace ((0xE0 + cp / 4096 - 0xE0) * 4096
             + (0x80 + (cp / 64) mod 64 - 0x80) * 64
             + (0x80 + cp mod 64 - 0x80)) with cp by arith.
    destruct (N.leb_spec 0x800 cp); [|lia].
    destruct (N.leb_spec 0xD800 cp); [|reflexivity].
    destruct (N.leb_spec cp 0xDFFF); [lia|reflexivity].
Qed.

(** Decoding undoes encoding. *)
Lemma decode_encode cps : forall bs,
  Utf8.encode cps = Some bs -> Utf8.decode bs = Some cps.
Proof.
  induction cps as [|cp cps IH]; intros bs; simpl.
  - now intros [= <-].
  - destruct (Utf8.encode_point cp) as [b|] eqn:Hp; [|discriminate].
    destruct (Utf8.encode cps) as [b'|] eqn:Hc; [|discriminate].
    intros H. known H.
    now rewrite (decode_encode_point cp b b' Hp), (IH b' eq_refl).
Qed.

(** Every number [encode_point] gives is a byte. *)
Lemma encode_point_bytes cp bs :
  Utf8.encode_point cp = Some bs -> Forall (fun b => b < 256) bs.
Proof.
  unfold Utf8.encode_point.
  destruct (N.ltb_spec cp 0x80) as [H1|H1].
  { intros H. known H. repeat constructor. lia. }
  destruct (N.ltb_spec cp 0x800) as [H2|H2].
  { intros H. known H. repeat constructor; arith. }
  destruct ((0xD800 <=? cp) && (cp <=? 0xDFFF)); [discriminate|].
  destruct (N.ltb_spec cp 0x10000) as [H5|H5].
  { intros H. known H. repeat constructor; arith. }
  destruct (N.ltb_spec cp 0x110000) as [H6|H6]; [|discriminate].
  intros H. known H. repeat constructor; arith.
Qed.

Lemma encode_bytes_bounded cps : forall bs,
  Utf8.encode cps = Some bs -> Forall (fun b => b < 256) bs.
Proof.
  induction cps as [|cp cps IH]; intros bs; simpl.
  - intros [= <-]. constructor.
  - destruct (Utf8.encode_point cp) as [b|] eqn:Hp; [|discriminate].
    destruct (Utf8.encode cps) as [b'|] eqn:Hc; [|discriminate].
    intros H. known H. apply Forall_app. split.
    + now apply (encode_point_bytes cp).
    + now apply IH.
Qed.

Lemma to_N_map_byte_of_N ns :
  Forall (fun b => b < 256) ns -> map Byte.to_N (map Utf8.byte_of_N ns) = ns.
Proof.
  induction 1 as [|n ns Hn _ IH]; simpl; [reflexivity|].
  now rewrite to_N_byte_of_N, IH.
Qed.

(** The bytes [encode('utf-8')] gives decode to the text. *)
Lemma decode_bytes_encode_bytes cps bytes :
  Utf8.encode_bytes cps = Some bytes -> Utf8.decode_bytes bytes = Some cps.
Proof.
  unfold Utf8.encode_bytes, Utf8.decode_bytes.
  destruct (Utf8.encode cps) as [ns|] eqn:He; [|discriminate].
  simpl. intros H. known H.
  rewrite to_N_map_byte_of_N by now apply (encode_bytes_bounded cps).
  now apply decode_encode.
Qed.

(** A code point has an encoding exactly when it is a scalar value. *)
Lemma encode_point_scalar cp :
  match Utf8.encode_point cp with Some _ => true | None => false end
  = Utf8.scalar cp.
Proof.
  unfold Utf8.encode_point, Utf8.scalar.
  destruct (N.ltb_spec cp 0x80); destruct (N.ltb_spec cp 0x800);
    destruct (N.leb_spec 0xD800 cp); destruct (N.leb_spec cp 0xDFFF);
    destruct (N.ltb_spec cp 0x10000); destruct (N.ltb_spec cp 0x110000);
    simpl; try reflexivity; lia.
Qed.

(** The bytes of a [str] below U+0100 are the bytes of its code
    points. *)
Lemma utf8_char_encode_point c :
  Utf8.encode_point (N_of_ascii c)
  = Some (map Byte.to_N (Str.utf8_char c)).
Proof.
  destruct c as [[] [] [] [] [] [] [] []]; vm_compute; reflexivity.
Qed.

Lemma encode_scalar cps :
  match Utf8.encode cps with Some _ => true | None => false end
  = forallb Utf8.scalar cps.
Proof.
  induction cps as [|cp cps IH]; simpl; [reflexivity|].
  rewrite <- IH, <- encode_point_scalar.
  destruct (Utf8.encode_point cp); [|reflexivity].
  now destruct (Utf8.encode cps).
Qed.

Lemma encode_points s :
  Utf8.encode (Str.points s) = Some (map Byte.to_N (Str.encode_utf8 s)).
Proof.
  induction s as [|c s IH]; [reflexivity|].
  change (Str.points (String c s)) with (N_of_ascii c :: Str.points s).
  simpl Utf8.encode. rewrite utf8_char_encode_point, IH.
  simpl Str.encode_utf8. now rewrite map_app.
Qed.

Lemma byte_of_N_to_N b : Utf8.byte_of_N (Byte.to_N b) = b.
Proof. unfold Utf8.byte_of_N. now rewrite Byte.of_to_N. Qed.

(** [encode_utf8] is [encode('utf-8')] on the code points of the
    [str]. *)
Lemma encode_bytes_points s :
  Utf8.encode_bytes (Str.points s) = Some (Str.encode_utf8 s).
Proof.
  unfold Utf8.encode_bytes. rewrite encode_points. simpl. f_equal.
  induction (Str.encode_utf8 s) as [|b bs IH]; [reflexivity|].
  simpl. now rewrite byte_of_N_to_N, IH.
Qed.

End Utf8Facts.

(** C3, as specified, at a template engine that returns the rendered
    text: the body [wsgi] makes of a [Template] holds that text as it
    is, a [str]; nothing is encoded and the chunk is no [bytes]. *)
Lemma C3_template_counterexample :
  let engine := fun (_ : string) (_ : mapping) =>
                  Return (PyStr "<p>Hello, Bob</p>") in
  let r := PyTemplate "t.html" [(PyStr "name", PyStr "Bob")] in
  translate engine r Sample.idle
  = (Return (PyList [PyStr "<p>Hello, Bob</p>"]), Sample.idle)
  /\ ~ (exists bytes s',
          translate engine r Sample.idle
          = (Return (PyList [PyBytes bytes]), s')).
Proof.
  intros engine r. split; [reflexivity|].
  intros (bytes & s' & H). discriminate H.
Qed.

(** C3, amended.  The translation of the value of the chain, in the
    order of the three tests.  A [Template] is rendered by the template
    engine and what the engine returns becomes the one chunk of the
    body as it is, without encoding; what the engine raises is raised.
    A [str] is encoded in UTF-8 and the bytes become the one chunk of
    the body: the bytes decode to the code points of the [str], "hello"
    gives [b"hello"], U+00E9 two bytes, U+20AC three and U+1F600 four;
    a [str] with a surrogate makes the encoding, and so the
    translation, raise [UnicodeEncodeError].  [None] gives the empty
    body.  And when the chain returns a value whose translation is
    [body], [wsgi] starts the response with the status and the headers
    of the response object and returns [body]. *)
Theorem C3_result_translation template_engine :
  (forall n m s,
      translate template_engine (PyTemplate n m) s =
      (match template_engine n m with
       | Return page => Return (PyList [page])
       | Raise e => Raise e
       | Exit b => Exit b
       end, s))
  /\ (forall t s,
         translate template_engine (PyStr t) s =
         (Return (PyList [PyBytes (Str.encode_utf8 t)]), s)
         /\ Utf8.decode_bytes (Str.encode_utf8 t) = Some (Str.points t))
  /\ (forall points s,
         forallb Utf8.scalar points = true ->
         exists bytes,
           translate template_engine (PyUnicode points) s =
           (Return (PyList [PyBytes bytes]), s)
           /\ Utf8.decode_bytes bytes = Some points)
  /\ (forall points s,
         forallb Utf8.scalar points = false ->
         translate template_engine (PyUnicode points) s =
         (Raise (OtherError "UnicodeEncodeError" "surrogates not allowed"),
          s))
  /\ (forall s,
         translate template_engine (PyStr "hello") s =
         (Return (PyList [PyBytes [x68; x65; x6c; x6c; x6f]]), s)
         /\ translate template_engine (PyStr (String (ascii_of_nat 233) "")) s
            = (Return (PyList [PyBytes [xc3; xa9]]), s)
         /\ translate template_engine (PyUnicode [0x20AC%N]) s
            = (Return (PyList [PyBytes [xe2; x82; xac]]), s)
         /\ translate template_engine (PyUnicode [0x1F600%N]) s
            = (Return (PyList [PyBytes [xf0; x9f; x98; x80]]), s))
  /\ (forall s,
         translate template_engine PyNone s = (Return (PyList []), s))
  /\ (forall document_root mws print_exception env s r s1 body,
         fn_exec mws ctx None (entered document_root env s) = (Return r, s1) ->
         ctx_bound s1 = true ->
         translate template_engine r s1 = (Return body, s1) ->
         wsgi document_root mws template_engine print_exception env s =
         (Return body,
          released (record [EvStartResponse (status (resp s1))
                                            (headers (resp s1))] s1))).
Proof.
  split; [|split; [|split; [|split; [|split; [|split]]]]].
  - intros n m s. unfold translate, bind, lift, ret.
    now destruct (template_engine n m).
  - intros t s. split; [reflexivity|].
    apply decode_bytes_encode_bytes, encode_bytes_points.
  - intros points s Hs.
    pose proof (encode_scalar points) as He. rewrite Hs in He.
    unfold translate, bind, ret, Utf8.encode_bytes.
    destruct (Utf8.encode points) as [ns|] eqn:Hn; [|discriminate].
    exists (map Utf8.byte_of_N ns). split; [reflexivity|].
    apply decode_bytes_encode_bytes. unfold Utf8.encode_bytes.
    now rewrite Hn.
  - intros points s Hs.
    pose proof (encode_scalar points) as He. rewrite Hs in He.
    unfold translate, bind, ret, raise, Utf8.encode_bytes.
    destruct (Utf8.encode points) as [ns|] eqn:Hn; [discriminate|].
    reflexivity.
  - intros s. repeat split.
  - reflexivity.
  - intros document_root mws print_exception env s r s1 body Hrun Hb Ht.
    apply wsgi_returns; [|exact Hb].
    unfold try_except, wsgi_try, bind. now rewrite Hrun, Ht.
Qed.

Lemma C3_result_translation_witness :
  Sample.serve (Answer (PyStr "hello")) Sample.idle =
  (Return (PyList [PyBytes [x68; x65; x6c; x6c; x6f]]),
   released (record [EvCall "only"; EvStartResponse "200 OK" []]
                    Sample.started)).
Proof.
  apply (proj2 (proj2 (proj2 (proj2 (proj2 (proj2
           (C3_result_translation Sample.engine))))))
           Sample.root (Sample.app (Answer (PyStr "hello"))) Sample.tb
           [("PATH_INFO", PyStr "/")] Sample.idle (PyStr "hello")
           (record [EvCall "only"] Sample.started));
    reflexivity.
Defined.

(** C10.  With an empty list of middleware, [dispatch(0)] raises
    [IndexError] at the subscript, before [i] is compared with the
    length of the list: whatever [next] is, it is not called.  [wsgi]
    then logs the [IndexError], starts the response with status
    "500 Internal Server Error" and no header, returns the 500 page
    with the escaped trace, and deletes the three attributes of
    [ctx]. *)
Theorem C10_empty_chain document_root template_engine print_exception env s :
  let e := IndexError "list index out of range" in
  (forall (C : Type) (c : C) (next : option (middleware C)) (s' : state),
      route_entry [] c next s' = (Raise e, s'))
  /\ wsgi document_root [] template_engine print_exception env s =
     (Return (PyList [PyStr trace_page_head;
                      PyStr (Str.replace ">" "&gt;"
                               (Str.replace "<" "&lt;" (print_exception e)));
                      PyStr "</pre></div></body></html>"]),
      released (record [EvException e;
                        EvStartResponse "500 Internal Server Error" []]
                       (entered document_root env s))).
Proof.
  intros e.
  assert (Hnil : forall (C : Type) (c : C) next s',
             route_entry [] c next s' = (Raise e, s')).
  { intros C c next s'. unfold route_entry.
    now rewrite dispatch_past_end by (simpl; lia). }
  split; [exact Hnil|].
  apply (wsgi_handles document_root [] template_engine print_exception
           env s e (entered document_root env s)).
  - apply Hnil.
  - now apply wsgi_except_Exception.
  - reflexivity.
Qed.

(** ** Sorting by priority *)

Section SortFacts.

Context {A : Type}.
Variable key : A -> Z.

Lemma insert_perm x l : Permutation (x :: l) (insert key x l).
Proof.
  induction l as [|y l IH]; simpl; [reflexivity|].
  destruct (key x <=? key y)%Z; [reflexivity|].
  rewrite perm_swap. now apply perm_skip.
Qed.

Lemma list_sort_perm l : Permutation l (list_sort key l).
Proof.
  induction l as [|x l IH]; simpl; [constructor|].
  rewrite <- insert_perm. now apply perm_skip.
Qed.

Lemma insert_HdRel a x l :
  key_le key a x -> HdRel (key_le key) a l -> HdRel (key_le key) a (insert key x l).
Proof.
  intros Hax Hal. destruct l as [|y l]; simpl.
  - now constructor.
  - destruct (key x <=? key y)%Z; constructor; trivial.
    now inversion Hal.
Qed.

Lemma insert_sorted x l :
  Sorted (key_le key) l -> Sorted (key_le key) (insert key x l).
Proof.
  induction 1 as [|y l Hl IH Hhd]; simpl.
  - repeat constructor.
  - destruct (Z.leb_spec (key x) (key y)) as [Hle|Hgt].
    + constructor; [now constructor|]. now constructor.
    + constructor; [exact IH|].
      apply insert_HdRel; [unfold key_le; lia|exact Hhd].
Qed.

Lemma list_sort_sorted l : Sorted (key_le key) (list_sort key l).
Proof.
  induction l as [|x l IH]; simpl; [constructor|].
  now apply insert_sorted.
Qed.

(** Inserting [x] puts it in front of the elements of its own key. *)
Lemma insert_stable p x l :
  filter (has_key key p) (insert key x l) = filter (has_key key p) (x :: l).
Proof.
  induction l as [|y l IH]; [reflexivity|].
  simpl insert. destruct (Z.leb_spec (key x) (key y)) as [Hle|Hgt];
    [reflexivity|].
  simpl in *. rewrite IH. unfold has_key.
  destruct (Z.eqb_spec (key y) p) as [Hy|Hy];
    destruct (Z.eqb_spec (key x) p) as [Hx|Hx]; try reflexivity.
  lia.
Qed.

(** The elements of one key come out of the sort in the order they
    went in. *)
Lemma list_sort_stable p l :
  filter (has_key key p) (list_sort key l) = filter (has_key key p) l.
Proof.
  induction l as [|x l IH]; [reflexivity|].
  simpl list_sort. rewrite insert_stable. simpl. now rewrite IH.
Qed.

(** A sorted list is determined by its elements of each key, in their
    order: two stable sorts of one list give one result. *)
Lemma stable_sorted_unique l1 : forall l2,
  Sorted (key_le key) l1 -> Sorted (key_le key) l2 ->
  (forall p, filter (has_key key p) l1 = filter (has_key key p) l2) ->
  l1 = l2.
Proof.
  assert (Hhead : forall x l y l',
             Sorted (key_le key) (x :: l) -> Sorted (key_le key) (y :: l') ->
             (forall p, filter (has_key key p) (x :: l)
                        = filter (has_key key p) (y :: l')) ->
             (key x <= key y)%Z).
  { intros x l y l' Hx Hy Hf.
    apply Sorted_StronglySorted in Hx; [|intros a b c; unfold key_le; lia].
    assert (Hin : In y (x :: l)).
    { apply (filter_In (has_key key (key y))). rewrite Hf. simpl.
      unfold has_key at 1. rewrite Z.eqb_refl. now left. }
    destruct Hin as [->|Hin]; [lia|].
    inversion Hx as [|? ? _ Hall]; subst.
    rewrite Forall_forall in Hall. now apply Hall. }
  induction l1 as [|x l1 IH]; intros l2 H1 H2 Hf.
  - destruct l2 as [|y l2]; [reflexivity|].
    specialize (Hf (key y)). simpl in Hf. unfold has_key in Hf at 1.
    rewrite Z.eqb_refl in Hf. discriminate.
  - destruct l2 as [|y l2].
    + specialize (Hf (key x)). simpl in Hf. unfold has_key in Hf at 1.
      rewrite Z.eqb_refl in Hf. discriminate.
    + assert (Hxy : key x = key y).
      { apply Z.le_antisymm.
        - exact (Hhead x l1 y l2 H1 H2 Hf).
        - apply (Hhead y l2 x l1 H2 H1). intros p. symmetry. apply Hf. }
      assert (Heq : x = y).
      { assert (Hx : has_key key (key x) x = true)
          by (unfold has_key; apply Z.eqb_refl).
        assert (Hy : has_key key (key x) y = true)
          by (unfold has_key; rewrite Hxy; apply Z.eqb_refl).
        specialize (Hf (key x)). simpl in Hf. rewrite Hx, Hy in Hf.
        congruence. }
      subst y. f_equal.
      apply IH; [now inversion H1|now inversion H2|].
      intros p. specialize (Hf p). simpl in Hf.
      destruct (has_key key p x); congruence.
Qed.

End SortFacts.

(** C8.  [init_middlewares] leaves in [self.middleware] the entries
    that were registered and loaded, sorted by their second element:
    every entry has a priority no greater than that of every later
    entry, no entry is lost or added, and the entries of any one
    priority are in the order they had before the sort. *)
Theorem C8_sorted_by_priority {C : Type} (listdir : list string)
    (plugin : string -> option (entry C)) (registered : list (entry C)) :
  let loaded := fold_left (load plugin) listdir registered in
  let sorted := init_middlewares listdir plugin registered in
  StronglySorted (fun a b => (snd a <= snd b)%Z) sorted
  /\ Permutation loaded sorted
  /\ forall p : Z,
       filter (fun m => (snd m =? p)%Z) sorted
       = filter (fun m => (snd m =? p)%Z) loaded.
Proof.
  intros loaded sorted. unfold sorted, init_middlewares. fold loaded.
  split; [|split].
  - apply Sorted_StronglySorted.
    + intros a b c. lia.
    + apply (list_sort_sorted take_second).
  - apply list_sort_perm.
  - intros p. apply (list_sort_stable take_second).
Qed.

(** ** The [view] decorator *)

Lemma Template_ok path kw :
  keywords_ok kw = true -> Template path kw = Return (PyTemplate path kw).
Proof.
  unfold keywords_ok, Template. intros H.
  apply andb_prop in H. destruct H as [H H3].
  apply andb_prop in H. destruct H as [H1 H2].
  rewrite H1. simpl.
  destruct (existsb (is_name "self") (map fst kw)); [discriminate|].
  destruct (existsb (is_name "template_name") (map fst kw));
    [discriminate|reflexivity].
Qed.

Lemma Template_TypeError path kw :
  keywords_ok kw = false ->
  exists msg, Template path kw = Raise (TypeError msg).
Proof.
  unfold keywords_ok, Template. intros H.
  destruct (forallb is_str (map fst kw)); simpl; [|eauto].
  destruct (existsb (is_name "self") (map fst kw)); simpl; [eauto|].
  destruct (existsb (is_name "template_name") (map fst kw)); simpl; [eauto|].
  discriminate.
Qed.

(** C9, as specified, at a handler that returns a list: the wrapper
    raises [ValueError] with the message of the source, and no
    exception it raises names "must return a mapping".  And at a
    handler that returns a dict with the key [template_name]: the
    wrapper raises [TypeError] and returns no [Template]. *)
Lemma C9_view_message_counterexample :
  let hello2 := fun _ : unit => ret (PyList [PyStr "a list"]) in
  let hello3 := fun _ : unit =>
                  ret (PyDict [(PyStr "template_name", PyStr "Bob")]) in
  view "test/view.html" hello2 tt Sample.idle =
  (Raise (ValueError "Expect return a dict when using @view() decorator."),
   Sample.idle)
  /\ ~ (exists e s',
          view "test/view.html" hello2 tt Sample.idle = (Raise e, s')
          /\ Str.contains "must return a mapping" (message e) = true)
  /\ view "test/view.html" hello3 tt Sample.idle =
     (Raise (TypeError "got multiple values for argument 'template_name'"),
      record [EvInfo "return Template"] Sample.idle).
Proof.
  intros hello2 hello3. split; [reflexivity|]. split; [|reflexivity].
  intros (e & s' & Hv & Hc).
  assert (He : e = ValueError
                     "Expect return a dict when using @view() decorator.")
    by (cbv in Hv; congruence).
  subst e. vm_compute in Hc. discriminate.
Qed.

(** C9, amended.  For a handler wrapped by [view] with template [path]:
    when the handler returns a dict whose keys are all [str] and none
    of them [self] or [template_name], the wrapper logs
    "return Template" and returns a [Template] whose name is [path]
    and whose model is that dict; when it returns anything that is no
    dict, the wrapper raises [ValueError] with the message "Expect
    return a dict when using @view() decorator." and returns
    nothing. *)
Theorem C9_view {Args : Type} (path : string) (func : Args -> M pyobj)
    (args : Args) (s : state) (r : pyobj) (s' : state) :
  func args s = (Return r, s') ->
  (forall d, r = PyDict d -> keywords_ok d = true ->
             view path func args s =
             (Return (PyTemplate path d), record [EvInfo "return Template"] s'))
  /\ (is_dict r = false ->
      view path func args s =
      (Raise (ValueError "Expect return a dict when using @view() decorator."),
       s')).
Proof.
  intros Hf. unfold view, bind. rewrite Hf. split.
  - intros d -> Hk. unfold logging_info, lift.
    rewrite emit_record. now rewrite (Template_ok path d Hk).
  - intros Hd. destruct r; try discriminate; reflexivity.
Qed.

Lemma C9_view_witness :
  view "t.html"
       (fun _ : unit => ret (PyDict [(PyStr "name", PyStr "Bob")])) tt
       Sample.idle
  = (Return (PyTemplate "t.html" [(PyStr "name", PyStr "Bob")]),
     record [EvInfo "return Template"] Sample.idle)
  /\ view "t.html" (fun _ : unit => ret (PyInt 7)) tt Sample.idle
     = (Raise (ValueError "Expect return a dict when using @view() decorator."),
        Sample.idle).
Proof.
  split.
  - apply (proj1 (C9_view "t.html"
                    (fun _ : unit =>
                       ret (PyDict [(PyStr "name", PyStr "Bob")]))
                    tt Sample.idle (PyDict [(PyStr "name", PyStr "Bob")])
                    Sample.idle eq_refl)); reflexivity.
  - apply (proj2 (C9_view "t.html" (fun _ : unit => ret (PyInt 7))
                    tt Sample.idle (PyInt 7) Sample.idle eq_refl)).
    reflexivity.
Defined.


(** * Further properties *)

(** ** The chain *)

(** X1.  [dispatch] never uses [next]: whatever the middleware are, the
    outcome of the chain, at every index and from every state, is the
    same for any two terminal handlers. *)
Theorem X1_next_is_never_used {C : Type} (mws : list (entry C)) (c : C)
    (next next' : option (middleware C)) :
  (forall i, dispatch mws c next i = dispatch mws c next' i)
  /\ route_entry mws c next = route_entry mws c next'.
Proof.
  assert (H : forall k i, List.length mws - i = k ->
                          dispatch mws c next i = dispatch mws c next' i).
  { induction k as [|k IH]; intros i Hk.
    - now rewrite !dispatch_past_end by lia.
    - destruct (nth_error mws i) as [e|] eqn:He.
      + rewrite (dispatch_step mws c next i e He),
          (dispatch_step mws c next' i e He).
        now rewrite (IH (S i)) by lia.
      + apply nth_error_None in He. lia. }
  split; [intros i; now apply (H (List.length mws - i))|].
  unfold route_entry. now apply (H (List.length mws - 0)).
Qed.

(** X2.  An exception raised further down the chain comes out of the
    entry point as it is: middleware that return or post-process what
    their continuation returns do not catch it, and the state is the
    one the exception was raised in. *)
Theorem X2_exception_propagates {C : Type} (c : C)
    (next : option (middleware C)) (l : cast) (tail : list (entry C))
    (s : state) (e : exn) (s' : state) :
  forallb calls_once (behaviours l) = true ->
  dispatch (chain l ++ tail) c next (List.length l)
           (record (map EvCall (names l)) s) = (Raise e, s') ->
  route_entry (chain l ++ tail) c next s = (Raise e, s').
Proof.
  intros Hl He. unfold route_entry.
  pose proof (dispatch_through c next l Hl [] tail s) as H.
  simpl in H. rewrite H, He. now rewrite through_Raise.
Qed.

Lemma X2_exception_propagates_witness :
  route_entry
    (chain [("log", Postprocess (fun r => PyList [r]), 1%Z)]
     ++ chain [("router", Fail (HttpError "404 Not Found"), 2%Z)])
    tt None Sample.idle
  = (Raise (HttpError "404 Not Found"),
     record [EvCall "log"; EvCall "router"] Sample.idle).
Proof.
  apply (X2_exception_propagates tt None
           [("log", Postprocess (fun r => PyList [r]), 1%Z)]
           (chain [("router", Fail (HttpError "404 Not Found"), 2%Z)])
           Sample.idle (HttpError "404 Not Found")
           (record [EvCall "log"; EvCall "router"] Sample.idle));
    reflexivity.
Defined.

(** Sorting commutes with a map that keeps the keys. *)
Lemma list_sort_map {A B : Type} (f : A -> B) (key : A -> Z) (key' : B -> Z) :
  (forall a, key' (f a) = key a) ->
  forall l, list_sort key' (map f l) = map f (list_sort key l).
Proof.
  intros Hk.
  assert (Hins : forall x l, insert key' (f x) (map f l)
                             = map f (insert key x l)).
  { intros x l. induction l as [|y l IH]; [reflexivity|].
    simpl. rewrite !Hk. destruct (key x <=? key y)%Z; [reflexivity|].
    simpl. now rewrite IH. }
  induction l as [|x l IH]; [reflexivity|].
  simpl. now rewrite IH, Hins.
Qed.

Lemma forallb_insert {A : Type} (key : A -> Z) (p : A -> bool) x l :
  forallb p (insert key x l) = p x && forallb p l.
Proof.
  induction l as [|y l IH]; simpl; [reflexivity|].
  destruct (key x <=? key y)%Z; simpl; [reflexivity|].
  rewrite IH. now rewrite !andb_assoc, (andb_comm (p y)).
Qed.

Lemma forallb_list_sort {A : Type} (key : A -> Z) (p : A -> bool) l :
  forallb p (list_sort key l) = forallb p l.
Proof.
  induction l as [|x l IH]; [reflexivity|].
  simpl. now rewrite forallb_insert, IH.
Qed.

Lemma forallb_behaviours l :
  forallb calls_once (behaviours l)
  = forallb (fun m => calls_once (snd (fst m))) l.
Proof.
  induction l as [|m l IH]; [reflexivity|]. simpl. now rewrite IH.
Qed.

(** Sorting the chain of a cast is sorting the cast. *)
Lemma chain_by_priority {C : Type} (l : cast) :
  list_sort take_second (@chain C l) = chain (by_priority l).
Proof.
  unfold chain, by_priority. apply list_sort_map. reflexivity.
Qed.

(** X3.  The order middleware run in is the order of their priorities,
    not the order they were registered in: after [init_middlewares],
    middleware that each call their continuation are entered in
    ascending priority, those of equal priority in the order of
    registration, and then the chain raises [IndexError]. *)
Theorem X3_runs_in_priority_order {C : Type} (c : C)
    (next : option (middleware C)) (l : cast)
    (plugin : string -> option (entry C)) (s : state) :
  forallb calls_once (behaviours l) = true ->
  route_entry (init_middlewares [] plugin (chain l)) c next s =
  (Raise (IndexError "list index out of range"),
   record (map EvCall (names (by_priority l))) s)
  /\ StronglySorted (fun a b => (snd a <= snd b)%Z) (by_priority l)
  /\ forall p : Z,
       filter (fun m => (snd m =? p)%Z) (by_priority l)
       = filter (fun m => (snd m =? p)%Z) l.
Proof.
  intros Hl. split; [|split].
  - unfold init_middlewares. simpl fold_left. rewrite chain_by_priority.
    assert (Hs : forallb calls_once (behaviours (by_priority l)) = true).
    { rewrite forallb_behaviours in *.
      unfold by_priority. now rewrite forallb_list_sort. }
    unfold route_entry.
    pose proof (dispatch_through c next (by_priority l) Hs [] [] s) as H.
    simpl in H. rewrite app_nil_r in H. rewrite H.
    rewrite dispatch_past_end by (rewrite chain_length; lia).
    unfold raise. now rewrite through_Raise.
  - apply Sorted_StronglySorted; [intros a b d; lia|].
    apply (list_sort_sorted snd).
  - intros p. apply (list_sort_stable snd).
Qed.

Lemma X3_runs_in_priority_order_witness :
  route_entry
    (init_middlewares []
       (fun _ => None)
       (chain [("session", Forward, 2%Z); ("log", Forward, 1%Z);
               ("auth", Forward, 2%Z)]))
    tt None Sample.idle
  = (Raise (IndexError "list index out of range"),
     record [EvCall "log"; EvCall "session"; EvCall "auth"] Sample.idle).
Proof.
  apply (X3_runs_in_priority_order tt None
           [("session", Forward, 2%Z); ("log", Forward, 1%Z);
            ("auth", Forward, 2%Z)]
           (fun _ => None) Sample.idle).
  reflexivity.
Defined.

(** ** The entry point, whatever the chain does *)


(** X4.  Whatever the chain returns or raises, a body that [wsgi]
    returns is never [None], a [str] or a [Template]: these three are
    always replaced by a list of chunks. *)
Theorem X4_body_is_translated document_root mws template_engine
    print_exception env s body s2 :
  wsgi document_root mws template_engine print_exception env s
  = (Return body, s2) ->
  is_None body = false /\ is_str body = false /\ is_Template body = false.
Proof.
  rewrite wsgi_unfold. unfold try_finally.
  destruct (fn_exec mws ctx None (entered document_root env s))
    as [res s1] eqn:Hrun.
  destruct (protected_effect mws template_engine print_exception _ _ _ Hrun)
    as (out & s' & evs & Hp & _ & _ & _ & Hout).
  rewrite Hp. destruct (wsgi_finally s') as [[u|e|b] s''];
    intros Heq; inversion Heq; subst. apply Hout.
Qed.

Lemma X4_body_is_translated_witness :
  is_None (PyList []) = false /\ is_str (PyList []) = false
  /\ is_Template (PyList []) = false.
Proof.
  apply (X4_body_is_translated Sample.root (Sample.app (Answer PyNone))
           Sample.engine Sample.tb [("PATH_INFO", PyStr "/")] Sample.idle
           (PyList [])
           (released (record [EvCall "only"; EvStartResponse "200 OK" []]
                             Sample.started))).
  reflexivity.
Defined.



(** X6.  When the chain has removed an attribute of [ctx], the
    [finally] block fails at the first [del] that finds nothing:
    [wsgi] raises [AttributeError] in place of the body, although the
    response has been started, and the attributes after the missing
    one are not deleted. *)
Theorem X6_teardown_stops document_root mws template_engine
    print_exception env s res s1 :
  fn_exec mws ctx None (entered document_root env s) = (res, s1) ->
  ctx_bound s1 = false ->
  exists a s2,
    wsgi document_root mws template_engine print_exception env s
    = (Raise (AttributeError (attr_name a)), s2)
    /\ has_attr a s1 = false
    /\ match a with
       | a_application =>
           request s2 = request s1 /\ response s2 = response s1
       | a_request =>
           application s2 = None /\ response s2 = response s1
       | a_response => application s2 = None /\ request s2 = None
       end.
Proof.
  intros Hrun Hb.
  destruct (protected_effect mws template_engine print_exception _ _ _ Hrun)
    as (out & s' & evs & Hp & (Ha & Hr & Hu) & _).
  rewrite wsgi_unfold. unfold try_finally. rewrite Hp.
  destruct s' as [a' r' u' rs' tr']; simpl in Ha, Hr, Hu; subst.
  destruct s1 as [[a|] [r|] [u|] rs tr]; try discriminate;
    unfold wsgi_finally, bind, del, emit; simpl.
  1: exists a_response.
  2: exists a_request.
  3: exists a_request.
  4: exists a_application.
  5: exists a_application.
  6: exists a_application.
  7: exists a_application.
  all: eexists; repeat split; reflexivity.
Qed.

Lemma X6_teardown_stops_witness :
  exists a s2,
    wsgi Sample.root
         [(fun _ _ => del a_request ;;; ret (PyStr "x"), 1%Z)]
         Sample.engine Sample.tb [] Sample.idle
    = (Raise (AttributeError (attr_name a)), s2)
    /\ has_attr a (record [EvDel a_request]
                     (clear_attr a_request
                        (entered Sample.root [] Sample.idle))) = false
    /\ match a with
       | a_application => request s2 = None /\ response s2 = Some tt
       | a_request => application s2 = None /\ response s2 = Some tt
       | a_response => application s2 = None /\ request s2 = None
       end.
Proof.
  apply (X6_teardown_stops Sample.root
           [(fun _ _ => del a_request ;;; ret (PyStr "x"), 1%Z)]
           Sample.engine Sample.tb [] Sample.idle (Return (PyStr "x"))
           (record [EvDel a_request]
                   (clear_attr a_request (entered Sample.root [] Sample.idle))));
    reflexivity.
Defined.

(** ** The [view] decorator in the application *)

(** X7.  A handler decorated with [view(path)] that returns a dict
    whose keys are all [str] and none of them [self] or
    [template_name], called by a middleware that does not call its
    continuation, is rendered with the template [path] and the dict as
    model: [wsgi] logs "return Template", starts the response with the
    status and headers of the response object and returns the rendered
    page as the one chunk of the body. *)
Theorem X7_view_is_rendered {Args : Type} document_root template_engine
    print_exception env s (path : string) (func : Args -> M pyobj)
    (args : Args) (p : Z) (rest : list (entry thread_local))
    (d : mapping) (s1 : state) (page : pyobj) :
  func args (entered document_root env s) = (Return (PyDict d), s1) ->
  keywords_ok d = true ->
  ctx_bound s1 = true ->
  template_engine path d = Return page ->
  wsgi document_root ((fun _ _ => view path func args, p) :: rest)
       template_engine print_exception env s
  = (Return (PyList [page]),
     released (record [EvInfo "return Template";
                       EvStartResponse (status (resp s1)) (headers (resp s1))]
                      s1)).
Proof.
  intros Hf Hk Hb He.
  replace (record [EvInfo "return Template";
                   EvStartResponse (status (resp s1)) (headers (resp s1))] s1)
    with (record [EvStartResponse (status (resp s1)) (headers (resp s1))]
                 (record [EvInfo "return Template"] s1))
    by apply record_record.
  apply wsgi_returns; [|exact Hb].
  unfold try_except, wsgi_try, bind, fn_exec, route_entry.
  rewrite (dispatch_step _ _ _ 0 (fun _ _ => view path func args, p))
    by reflexivity.
  simpl fst. unfold view at 1, bind. rewrite Hf.
  unfold logging_info, lift. rewrite emit_record, (Template_ok path d Hk).
  unfold translate, bind, lift, ret. rewrite He. reflexivity.
Qed.

Lemma X7_view_is_rendered_witness :
  wsgi Sample.root
       [(fun _ _ => view "hello.html"
                         (fun _ : unit =>
                            ret (PyDict [(PyStr "name", PyStr "Bob")])) tt,
         1%Z)]
       Sample.engine Sample.tb [] Sample.idle
  = (Return (PyList [PyBytes (Str.encode_utf8 "page hello.html")]),
     released (record [EvInfo "return Template";
                       EvStartResponse "200 OK" []]
                      (entered Sample.root [] Sample.idle))).
Proof.
  apply (X7_view_is_rendered Sample.root Sample.engine Sample.tb []
           Sample.idle "hello.html"
           (fun _ : unit => ret (PyDict [(PyStr "name", PyStr "Bob")])) tt
           1%Z [] [(PyStr "name", PyStr "Bob")]
           (entered Sample.root [] Sample.idle));
    reflexivity.
Defined.

(** X8.  A handler decorated with [view] twice never returns.
    Whenever the handler itself returns, one of the wrappers raises:
    the inner one [TypeError], when the handler returns a dict with a
    key that is no [str] or is [self] or [template_name]; otherwise
    the outer one [ValueError], because what it gets from the inner
    one is never a dict. *)
Theorem X8_view_twice_fails {Args : Type} (path1 path2 : string)
    (func : Args -> M pyobj) (args : Args) (s : state) :
  (forall r s', view path1 (view path2 func) args s <> (Return r, s'))
  /\ (forall r s1,
         func args s = (Return r, s1) ->
         exists e s',
           view path1 (view path2 func) args s = (Raise e, s')
           /\ match r with
              | PyDict d =>
                  if keywords_ok d
                  then e = ValueError
                             "Expect return a dict when using @view() decorator."
                  else exists msg, e = TypeError msg
              | _ =>
                  e = ValueError
                        "Expect return a dict when using @view() decorator."
              end).
Proof.
  split.
  - intros r s'. unfold view, bind, logging_info, lift.
    destruct (func args s) as [[v|e|b] s1]; try discriminate.
    destruct v; try (simpl; discriminate).
    rewrite emit_record.
    destruct (keywords_ok d) eqn:Hk.
    + rewrite (Template_ok path2 d Hk). discriminate.
    + destruct (Template_TypeError path2 d Hk) as [msg ->]. discriminate.
  - intros r s1 Hf. unfold view, bind, logging_info, lift. rewrite Hf.
    destruct r; try (simpl; do 2 eexists; split; reflexivity).
    rewrite emit_record.
    destruct (keywords_ok d) eqn:Hk.
    + rewrite (Template_ok path2 d Hk).
      do 2 eexists; split; reflexivity.
    + destruct (Template_TypeError path2 d Hk) as [msg ->].
      do 2 eexists; split; [reflexivity|]. now exists msg.
Qed.

Lemma X8_view_twice_fails_witness :
  exists e s',
    view "outer.html"
         (view "inner.html"
               (fun _ : unit => ret (PyDict [(PyStr "self", PyStr "Bob")])))
         tt Sample.idle
    = (Raise e, s')
    /\ exists msg, e = TypeError msg.
Proof.
  apply (proj2 (X8_view_twice_fails "outer.html" "inner.html"
                  (fun _ : unit =>
                     ret (PyDict [(PyStr "self", PyStr "Bob")]))
                  tt Sample.idle)
           (PyDict [(PyStr "self", PyStr "Bob")]) Sample.idle).
  reflexivity.
Defined.

(** ** Module names and file names *)

Section FileNames.

Lemma replace_from_0 old new c s :
  Str.replace_from old new 0 (String c s) =
  if Str.startswith old (String c s)
  then String.append new (Str.replace_from old new (String.length old - 1) s)
  else String c (Str.replace_from old new 0 s).
Proof. reflexivity. Qed.

Lemma contains_cons needle c s :
  Str.contains needle (String c s) =
  Str.startswith needle (String c s) || Str.contains needle s.
Proof. reflexivity. Qed.

Lemma str_length_append a b :
  String.length (String.append a b) = String.length a + String.length b.
Proof. induction a as [|c a IH]; simpl; [reflexivity|now rewrite IH]. Qed.

Lemma substring_all s : substring 0 (String.length s) s = s.
Proof. induction s as [|c s IH]; simpl; [reflexivity|now rewrite IH]. Qed.

Lemma substring_suffix a b :
  substring (String.length a) (String.length b) (String.append a b) = b.
Proof.
  induction a as [|c a IH]; simpl; [apply substring_all|exact IH].
Qed.

(** [(a + b).endswith(b)] *)
Lemma endswith_append a b : Str.endswith (String.append a b) b = true.
Proof.
  unfold Str.endswith. rewrite str_length_append.
  replace (String.length a + String.length b - String.length b)
    with (String.length a) by lia.
  rewrite substring_suffix, String.eqb_refl, andb_true_r.
  apply Nat.leb_le. lia.
Qed.

(** An occurrence of ".py" cannot begin in [s] and end in a ".py"
    that follows it. *)
Lemma startswith_py_junction c s :
  Str.startswith ".py" (String c (String.append s ".py"))
  = Str.startswith ".py" (String c s).
Proof.
  destruct s as [|x [|y s]]; simpl;
    destruct (Ascii.eqb "." c); simpl; try reflexivity;
    destruct (Ascii.eqb "p" x); simpl; reflexivity.
Qed.

Lemma replace_py_suffix base :
  Str.contains ".py" base = false ->
  Str.replace ".py" "" (String.append base ".py") = base.
Proof.
  unfold Str.replace. induction base as [|c base IH]; intros H.
  - reflexivity.
  - rewrite contains_cons in H. apply orb_false_elim in H.
    destruct H as [Hs Hc].
    change (String.append (String c base) ".py")
      with (String c (String.append base ".py")).
    rewrite replace_from_0, startswith_py_junction, Hs.
    now rewrite (IH Hc).
Qed.

End FileNames.

(** X9.  [s.replace(old, new)] returns [s] itself when [old] does not
    occur in [s]; in particular a trace without angle brackets is
    escaped to itself. *)
Theorem X9_replace_without_occurrence (old new s : string) :
  Str.contains old s = false -> Str.replace old new s = s.
Proof.
  unfold Str.replace. induction s as [|c s IH]; intros H; [reflexivity|].
  rewrite contains_cons in H. apply orb_false_elim in H.
  destruct H as [Hs Hc].
  rewrite replace_from_0, Hs. now rewrite (IH Hc).
Qed.

Lemma X9_replace_without_occurrence_witness :
  Str.replace "<" "&lt;" "KeyError: 'id'" = "KeyError: 'id'".
Proof.
  apply (X9_replace_without_occurrence "<" "&lt;" "KeyError: 'id'").
  reflexivity.
Defined.

(** X10.  A file [base.py] of the middleware directory, where ".py"
    does not occur in [base], passes the test on its name and is looked
    up as the module [base].  When the lookup raises, as for a name
    that is no module of the package, the turn of the loop raises that
    exception and leaves the list as it is.  When the module has no
    callable of its own name, or [base] ends with two underscores, the
    list is unchanged.  Otherwise the callable is called: what it
    returns is appended to the list, and what it raises is raised. *)
Theorem X10_module_of_file {C : Type} (package : string -> Loader.lookup C)
    (middleware : list (entry C)) (base : string) :
  Str.contains ".py" base = false ->
  let f := String.append base ".py" in
  Str.endswith f ".py" = true
  /\ Str.replace ".py" "" f = base
  /\ Loader.load package middleware f =
     match package base with
     | Loader.NotFound e => (Raise e, middleware)
     | Loader.Found None => (Return tt, middleware)
     | Loader.Found (Some made) =>
         if Str.endswith base "__" then (Return tt, middleware)
         else match made with
              | Return m => (Return tt, middleware ++ [m])
              | Raise e => (Raise e, middleware)
              | Exit b => (Exit b, middleware)
              end
     end.
Proof.
  intros H f. unfold f.
  split; [apply endswith_append|].
  split; [now apply replace_py_suffix|].
  unfold Loader.load. rewrite endswith_append, (replace_py_suffix base H).
  destruct (package base) as [e|[made|]]; try reflexivity.
  now destruct (Str.endswith base "__").
Qed.

Lemma X10_module_of_file_witness :
  let package := fun name =>
    if String.eqb name "auth"
    then Loader.Found (Some (Return (play (Context := unit) "auth" Forward,
                                     1%Z)))
    else Loader.NotFound (AttributeError name) in
  (Str.endswith "auth.py" ".py" = true
   /\ Str.replace ".py" "" "auth.py" = "auth"
   /\ Loader.load package [] "auth.py"
      = (Return tt, [(play "auth" Forward, 1%Z)]))
  /\ (Str.endswith "a.b.py" ".py" = true
      /\ Str.replace ".py" "" "a.b.py" = "a.b"
      /\ Loader.load package [] "a.b.py"
         = (Raise (AttributeError "a.b"), [])).
Proof.
  intros package. split.
  - apply (X10_module_of_file package [] "auth"). reflexivity.
  - apply (X10_module_of_file package [] "a.b"). reflexivity.
Defined.

(** ** The loop with the imports that fail *)

Section LoaderFacts.

Context {C : Type}.
Variable package : string -> Loader.lookup C.

(** A turn of the loop that returns is a turn of the loop on a
    directory whose modules all import. *)
Lemma Loader_load_returns m f m' :
  Loader.load package m f = (Return tt, m') ->
  m' = load (Loader.plugin_of package) m f.
Proof.
  unfold Loader.load, load, Loader.plugin_of.
  destruct (Str.endswith f ".py"); [|congruence].
  destruct (package (Str.replace ".py" "" f)) as [e|[made|]];
    try congruence.
  destruct (negb (Str.endswith (Str.replace ".py" "" f) "__"));
    destruct made; congruence.
Qed.

Lemma Loader_loop_returns fs : forall m m',
  Loader.loop package fs m = (Return tt, m') ->
  m' = fold_left (load (Loader.plugin_of package)) fs m.
Proof.
  induction fs as [|f fs IH]; intros m m'; simpl; [congruence|].
  destruct (Loader.load package m f) as [[[]|e|b] m1] eqn:Hl;
    try discriminate.
  intros H. rewrite <- (Loader_load_returns m f m1 Hl). now apply IH.
Qed.

(** When the call returns, the list is the list of [init_middlewares]
    on the directory whose modules all import. *)
Lemma Loader_init_returns listdir m m' :
  Loader.init_middlewares listdir package m = (Return tt, m') ->
  m' = init_middlewares listdir (Loader.plugin_of package) m.
Proof.
  unfold Loader.init_middlewares, init_middlewares.
  destruct (Loader.loop package listdir m) as [[[]|e|b] m1] eqn:Hl;
    try discriminate.
  intros H. rewrite <- (Loader_loop_returns listdir m m1 Hl). congruence.
Qed.

Lemma Loader_loop_app fs1 : forall fs2 m m1,
  Loader.loop package fs1 m = (Return tt, m1) ->
  Loader.loop package (fs1 ++ fs2) m = Loader.loop package fs2 m1.
Proof.
  induction fs1 as [|f fs1 IH]; intros fs2 m m1; simpl; [congruence|].
  destruct (Loader.load package m f) as [[[]|e|b] m'] eqn:Hl;
    try discriminate.
  apply IH.
Qed.

End LoaderFacts.

(** X18.  [init_middlewares] stops at the first file whose module
    cannot be imported or whose factory raises: it raises that
    exception, the files after it are not looked at, and
    [self.middleware] is left with the entries loaded so far appended
    and not sorted. *)
Theorem X18_init_stops_at_failure {C : Type}
    (package : string -> Loader.lookup C) (before after : list string)
    (f : string) (middleware loaded : list (entry C)) (e : exn) :
  Loader.loop package before middleware = (Return tt, loaded) ->
  Loader.load package loaded f = (Raise e, loaded) ->
  Loader.init_middlewares (before ++ f :: after) package middleware
  = (Raise e, loaded)
  /\ loaded = fold_left (load (Loader.plugin_of package)) before middleware.
Proof.
  intros Hb Hf. split.
  - unfold Loader.init_middlewares.
    rewrite (Loader_loop_app package before (f :: after) _ _ Hb).
    simpl. now rewrite Hf.
  - now apply Loader_loop_returns.
Qed.

Lemma X18_init_stops_at_failure_witness :
  let package := fun name =>
    if String.eqb name "router"
    then Loader.Found (Some (Return (play (Context := unit) "router" Forward,
                                     9%Z)))
    else if String.eqb name "auth"
    then Loader.Found (Some (Return (play "auth" Forward, 1%Z)))
    else Loader.NotFound (AttributeError name) in
  Loader.init_middlewares (["router.py"] ++ "x.py.py" :: ["auth.py"])
                          package []
  = (Raise (AttributeError "x"), [(play "router" Forward, 9%Z)])
  /\ [(play "router" Forward, 9%Z)]
     = fold_left (load (Loader.plugin_of package)) ["router.py"] [].
Proof.
  intros package.
  apply (X18_init_stops_at_failure package ["router.py"] ["auth.py"]
           "x.py.py" [] [(play "router" Forward, 9%Z)]
           (AttributeError "x"));
    reflexivity.
Defined.

(** ** What [init_middlewares] adds *)

Section Loading.

Context {C : Type}.
Variable plugin : string -> option (entry C).

Lemma load_app m f : load plugin m f = m ++ load plugin [] f.
Proof.
  unfold load. destruct (Str.endswith f ".py"); [|now rewrite app_nil_r].
  destruct (plugin (Str.replace ".py" "" f)); [|now rewrite app_nil_r].
  destruct (negb (Str.endswith (Str.replace ".py" "" f) "__"));
    [reflexivity|now rewrite app_nil_r].
Qed.

Lemma load_length f : List.length (load plugin [] f) <= 1.
Proof.
  unfold load. destruct (Str.endswith f ".py"); simpl; [|lia].
  destruct (plugin (Str.replace ".py" "" f)); simpl; [|lia].
  destruct (negb (Str.endswith (Str.replace ".py" "" f) "__")); simpl; lia.
Qed.

(** The loop appends to the list, whatever the list holds. *)
Lemma fold_load fs : forall m,
  fold_left (load plugin) fs m = m ++ fold_left (load plugin) fs [].
Proof.
  induction fs as [|f fs IH]; intros m; simpl; [now rewrite app_nil_r|].
  rewrite (IH (load plugin m f)), (IH (load plugin [] f)), load_app.
  now rewrite app_assoc.
Qed.

Lemma fold_load_length fs :
  List.length (fold_left (load plugin) fs []) <= List.length fs.
Proof.
  induction fs as [|f fs IH]; simpl; [lia|].
  rewrite fold_load, length_app. pose proof (load_length f). lia.
Qed.

End Loading.

(** X11.  [init_middlewares] keeps every entry that was registered
    before it ran and adds at most one entry for each file of the
    directory: the list afterwards is a rearrangement of the entries
    before followed by the entries loaded. *)
Theorem X11_init_keeps_registered {C : Type} (listdir : list string)
    (plugin : string -> option (entry C)) (registered : list (entry C)) :
  let added := fold_left (load plugin) listdir [] in
  let after := init_middlewares listdir plugin registered in
  Permutation (registered ++ added) after
  /\ List.length added <= List.length listdir
  /\ List.length after = List.length registered + List.length added.
Proof.
  intros added after.
  assert (Hp : Permutation (registered ++ added) after).
  { unfold after, init_middlewares. rewrite fold_load.
    apply list_sort_perm. }
  split; [exact Hp|]. split; [apply fold_load_length|].
  rewrite <- (Permutation_length Hp). apply length_app.
Qed.

(** X12.  [init_middlewares] does not remember what it has loaded:
    run twice on the same directory, it leaves every loaded middleware
    in the list twice. *)
Theorem X12_init_twice_duplicates {C : Type} (listdir : list string)
    (plugin : string -> option (entry C)) (registered : list (entry C)) :
  let added := fold_left (load plugin) listdir [] in
  Permutation (registered ++ added ++ added)
              (init_middlewares listdir plugin
                 (init_middlewares listdir plugin registered)).
Proof.
  intros added. unfold init_middlewares.
  rewrite <- list_sort_perm.
  rewrite (fold_load plugin listdir (list_sort _ _)). fold added.
  rewrite app_assoc. apply Permutation_app_tail.
  rewrite <- list_sort_perm, fold_load. reflexivity.
Qed.

(** X13.  Sorting a second time changes nothing: [init_middlewares]
    run on an empty directory returns a list that [init_middlewares]
    has sorted as it is. *)
Theorem X13_sorted_list_stays {C : Type} (listdir : list string)
    (plugin plugin' : string -> option (entry C))
    (registered : list (entry C)) :
  init_middlewares [] plugin' (init_middlewares listdir plugin registered)
  = init_middlewares listdir plugin registered.
Proof.
  unfold init_middlewares. simpl fold_left.
  apply (stable_sorted_unique take_second).
  - apply list_sort_sorted.
  - apply list_sort_sorted.
  - intros p. apply list_sort_stable.
Qed.

(** ** The [datetime] filter *)

(** X14.  For a time less than a week ago, or in the future, the
    filter shows a count and a unit, and the count is never zero and
    never reaches the next unit: 1 to 59 minutes, 1 to 23 hours, 1 to
    6 days.  Less than a minute ago, and any time in the future, is
    shown as one minute ago. *)
Theorem X14_relative_time (delta : Z) (dt : Z * Z * Z) :
  (delta < 604800)%Z ->
  exists (n : Z) (unit : Filter.text),
    Filter.datetime_filter delta dt = Filter.str_of_int n ++ unit
    /\ (1 <= n)%Z
    /\ ((unit = Filter.minutes_ago /\ (n <= 59)%Z)
        \/ (unit = Filter.hours_ago /\ (n <= 23)%Z)
        \/ (unit = Filter.days_ago /\ (n <= 6)%Z))
    /\ ((delta < 60)%Z -> n = 1%Z /\ unit = Filter.minutes_ago).
Proof.
  intros Hweek. unfold Filter.datetime_filter.
  destruct (Z.ltb_spec delta 60) as [H1|H1].
  { exists 1%Z, Filter.minutes_ago. repeat split; try lia.
    left. split; [reflexivity|lia]. }
  destruct (Z.ltb_spec delta 3600) as [H2|H2].
  { exists (delta / 60)%Z, Filter.minutes_ago.
    pose proof (Z.div_mod delta 60 ltac:(lia)).
    pose proof (Z.mod_pos_bound delta 60 ltac:(lia)).
    repeat split; try lia. left. split; [reflexivity|lia]. }
  destruct (Z.ltb_spec delta 86400) as [H3|H3].
  { exists (delta / 3600)%Z, Filter.hours_ago.
    pose proof (Z.div_mod delta 3600 ltac:(lia)).
    pose proof (Z.mod_pos_bound delta 3600 ltac:(lia)).
    repeat split; try lia. right. left. split; [reflexivity|lia]. }
  destruct (Z.ltb_spec delta 604800) as [H4|H4]; [|lia].
  exists (delta / 86400)%Z, Filter.days_ago.
  pose proof (Z.div_mod delta 86400 ltac:(lia)).
  pose proof (Z.mod_pos_bound delta 86400 ltac:(lia)).
  repeat split; try lia. right. right. split; [reflexivity|lia].
Qed.

Lemma X14_relative_time_witness :
  exists (n : Z) (unit : Filter.text),
    Filter.datetime_filter 7199 (2024, 2, 29)%Z = Filter.str_of_int n ++ unit
    /\ (1 <= n)%Z
    /\ ((unit = Filter.minutes_ago /\ (n <= 59)%Z)
        \/ (unit = Filter.hours_ago /\ (n <= 23)%Z)
        \/ (unit = Filter.days_ago /\ (n <= 6)%Z))
    /\ ((7199 < 60)%Z -> n = 1%Z /\ unit = Filter.minutes_ago).
Proof.
  apply (X14_relative_time 7199 (2024, 2, 29)%Z). reflexivity.
Defined.

(** ** The application object *)

Section Running.

Variable print_exception : exn -> string.

(** Once the object is running, a call leaves it running with the
    engine and the document root it has, and returns only if it is a
    call of [init_middlewares]. *)
Lemma invoke_running m self :
  App._running self = true ->
  let (ok, self') := App.invoke print_exception m self in
  App._running self' = true
  /\ App._template_engine self' = App._template_engine self
  /\ App._document_root self' = App._document_root self
  /\ (ok = true ->
      App.is_get_wsgi_application m = false
      /\ App.is_set_template_engine m = false).
Proof.
  intros Hr. destruct m; simpl;
    unfold App.set_template_engine, App.get_wsgi_application,
           App._check_not_running; rewrite ?Hr; simpl;
    repeat split; try assumption; try discriminate; reflexivity.
Qed.

End Running.

(** X15.  Once [get_wsgi_application] has set the object running,
    whatever methods are called afterwards, it stays running, its
    template engine and document root stay what they are, and no
    later call of [get_wsgi_application] or of the setter of
    [template_engine] returns: both raise [RuntimeError]. *)
Theorem X15_running_is_final (print_exception : exn -> string)
    (ms : list App.method) (self : App.digwebs) :
  App._running self = true ->
  let (done, self') := App.invoke_all print_exception ms self in
  App._running self' = true
  /\ App._template_engine self' = App._template_engine self
  /\ App._document_root self' = App._document_root self
  /\ forallb (fun m => negb (App.is_get_wsgi_application m
                             || App.is_set_template_engine m)) done = true.
Proof.
  revert self. induction ms as [|m ms IH]; intros self Hr; simpl.
  - repeat split. exact Hr.
  - pose proof (invoke_running print_exception m self Hr) as Hm.
    destruct (App.invoke print_exception m self) as [ok self1].
    destruct Hm as (Hr1 & He1 & Hd1 & Hok).
    specialize (IH self1 Hr1).
    destruct (App.invoke_all print_exception ms self1) as [done self2].
    destruct IH as (Hr2 & He2 & Hd2 & Hall).
    repeat split; try congruence.
    destruct ok; [|exact Hall].
    simpl. destruct (Hok eq_refl) as [Hg Hs]. now rewrite Hg, Hs, Hall.
Qed.

Lemma X15_running_is_final_witness :
  let self := App.mk true Sample.root (Some Sample.engine) [] in
  let (done, self') :=
    App.invoke_all Sample.tb
      [App.m_get_wsgi_application;
       App.m_set_template_engine (fun _ _ => Return PyNone);
       App.m_init_middlewares [] (fun _ => None)]
      self in
  App._running self' = true
  /\ App._template_engine self' = App._template_engine self
  /\ App._document_root self' = App._document_root self
  /\ forallb (fun m => negb (App.is_get_wsgi_application m
                             || App.is_set_template_engine m)) done = true.
Proof.
  intros self.
  apply (X15_running_is_final Sample.tb
           [App.m_get_wsgi_application;
            App.m_set_template_engine (fun _ _ => Return PyNone);
            App.m_init_middlewares [] (fun _ => None)]
           self).
  reflexivity.
Defined.

(** Once the object is running, no call of [get_wsgi_application]
    returns. *)
Lemma invoke_all_after_running (print_exception : exn -> string)
    (ms : list App.method) : forall self : App.digwebs,
  App._running self = true ->
  let (done, self') := App.invoke_all print_exception ms self in
  App._running self' = true
  /\ filter App.is_get_wsgi_application done = [].
Proof.
  induction ms as [|m ms IH]; intros self Hr; simpl.
  - now split.
  - pose proof (invoke_running print_exception m self Hr) as Hm.
    destruct (App.invoke print_exception m self) as [ok self1].
    destruct Hm as (Hr1 & _ & _ & Hok).
    specialize (IH self1 Hr1).
    destruct (App.invoke_all print_exception ms self1) as [done self2].
    destruct IH as [Hr2 Hnone]. split; [exact Hr2|].
    destruct ok; [|exact Hnone].
    simpl. destruct (Hok eq_refl) as [Hg _]. now rewrite Hg.
Qed.

(** X16.  In any sequence of method calls on any object,
    [get_wsgi_application] returns at most once, and when it has
    returned the object is running at the end. *)
Theorem X16_one_application (print_exception : exn -> string)
    (ms : list App.method) (self : App.digwebs) :
  let (done, self') := App.invoke_all print_exception ms self in
  List.length (filter App.is_get_wsgi_application done) <= 1
  /\ (List.length (filter App.is_get_wsgi_application done) = 1 ->
      App._running self' = true).
Proof.
  revert self. induction ms as [|m ms IH]; intros self; simpl.
  - split; [lia|discriminate].
  - destruct (App._running self) eqn:Hr.
    + pose proof (invoke_all_after_running print_exception (m :: ms) self Hr)
        as Hlatch.
      simpl in Hlatch.
      destruct (App.invoke print_exception m self) as [ok self1].
      destruct (App.invoke_all print_exception ms self1) as [done self2].
      destruct Hlatch as [Hr2 Hnone]. rewrite Hnone. simpl.
      split; [lia|discriminate].
    + destruct m; simpl;
        unfold App.set_template_engine, App.get_wsgi_application,
               App._check_not_running; rewrite ?Hr; simpl.
      * specialize (IH (App.mk false (App._document_root self) (Some engine)
                               (App.middleware self))).
        destruct (App.invoke_all print_exception ms _) as [done self2].
        exact IH.
      * pose proof (invoke_all_after_running print_exception ms
                      (App.mk true (App._document_root self)
                              (App._template_engine self)
                              (App.middleware self)) eq_refl) as Hlatch.
        destruct (App.invoke_all print_exception ms _) as [done self2].
        destruct Hlatch as [Hr2 Hnone]. simpl. rewrite Hnone. simpl.
        split; [lia|intros _; exact Hr2].
      * specialize (IH (App.init listdir plugin self)).
        destruct (App.invoke_all print_exception ms _) as [done self2].
        exact IH.
Qed.

(** ** The decorators together *)

(** [view] and a route decorator can be stacked in either order:
    the function that comes out has the same route, the same method and
    the same behaviour.  Of two route decorators the outer one decides
    both attributes, and none of them changes what the handler does
    when called. *)
Lemma decorators_stack {Args : Type} (t p p' : string)
    (func : function Args) :
  view_decorator t (get p func) = get p (view_decorator t func)
  /\ view_decorator t (post p func) = post p (view_decorator t func)
  /\ view_decorator t (put p func) = put p (view_decorator t func)
  /\ view_decorator t (delete p func) = delete p (view_decorator t func)
  /\ post p' (get p func) = post p' func
  /\ code (delete p' (put p (post p (get p func)))) = code func.
Proof. repeat split. Qed.

(** ** An application without middleware *)

(** X17.  A new [digwebs] object has no middleware, and
    [get_wsgi_application] does not load any: unless
    [init_middlewares] is called, the application it returns answers
    every request with the 500 page for the [IndexError] of the empty
    chain, and the object is running afterwards. *)
Theorem X17_new_application_fails (print_exception : exn -> string)
    (document_root : string) (engine : App.renderer) (env : dict)
    (s : state) :
  let e := IndexError "list index out of range" in
  exists self' application,
    App.get_wsgi_application print_exception
                             (App.__init__ document_root engine)
    = (Return application, self')
    /\ App._running self' = true
    /\ application self' env s =
       (Return (PyList [PyStr trace_page_head;
                        PyStr (Str.replace ">" "&gt;"
                                 (Str.replace "<" "&lt;" (print_exception e)));
                        PyStr "</pre></div></body></html>"]),
        released (record [EvException e;
                          EvStartResponse "500 Internal Server Error" []]
                         (entered document_root env s))).
Proof.
  intros e. do 2 eexists. split; [reflexivity|]. split; [reflexivity|].
  unfold App.application_of. simpl.
  apply (wsgi_handles document_root [] engine print_exception env s e
           (entered document_root env s)).
  - unfold fn_exec, route_entry.
    now rewrite dispatch_past_end by (simpl; lia).
  - now apply wsgi_except_Exception.
  - reflexivity.
Qed.
